(** * PeerMetals video reels: the request pipeline, embedded and verified

    A shallow embedding of the JavaScript under [videoreels/]:
    - [src/utils/generateDescription.js]  (description generator),
    - [webhook/route.js]                  (webhook entry point),
    - [api/render-video.js]               (synchronous render endpoint).

    JavaScript values are modelled by the inductive [value]; objects are finite
    maps from own property names to values.  A JavaScript string is a [string]
    whose characters stand for UTF-16 code units below 256 (Latin-1).  A
    number is carried by what the code can observe of it: whether it is zero
    or NaN, how it prints, and how it compares with an integer.  Conversions
    that JavaScript can refuse (ToString of an object that shadows
    [toString]) are partial here too.  Every external collaborator (data
    store, object storage, text-generation service, rendering engine, file
    system, clock, environment) answers through a [World] record, and every
    call made to one of them is recorded, in order, in a trace of [event]s. *)

From Stdlib Require Import ZArith String Ascii DecimalString Lia.
From stdpp Require Import base option list gmap strings.

Local Open Scope string_scope.
Local Open Scope list_scope.
Local Open Scope nat_scope.

(** ** JavaScript values *)

(** A number, by its observations: [nonzero] is ToBoolean (false for +0, -0
    and NaN), [numeral] is Number::toString ("0.5", "1e+21", "NaN"), and
    [above k] tells whether the number is greater than the integer [k]. *)
Record number : Type := Number {
  nonzero : bool;
  numeral : string;
  above : Z → bool
}.

#[warnings="-register-all"] Inductive value : Type :=
  | VUndefined
  | VNull
  | VBool (b : bool)
  | VNum (n : number)
  | VStr (s : string)
  | VArr (l : list value)
  | VObj (o : gmap string value).

(** An error object: only its [message] is ever inspected by the code. *)
Record error : Type := Error { message : string }.

(** Result of a computation that may [throw]. *)
Inductive outcome (A : Type) : Type :=
  | Ok (a : A)
  | Throw (e : error).
Arguments Ok {A} a.
Arguments Throw {A} e.

#[export] Instance outcome_ret : MRet outcome := λ A a, Ok a.

#[export] Instance outcome_bind : MBind outcome := λ A B f m,
  match m with
  | Ok a => f a
  | Throw e => Throw e
  end.

(** [throw new Error(msg)] *)
Definition throw {A : Type} (msg : string) : outcome A := Throw (Error msg).

(** ** String built-ins *)

Module Str.

Definition code (c : ascii) : nat := nat_of_ascii c.

Definition eqc (c d : ascii) : bool := Ascii.eqb c d.

Definition between (lo hi n : nat) : bool := Nat.leb lo n && Nat.leb n hi.

(** [s.length] *)
Definition len (s : string) : nat := String.length s.

(** [s.substring(0, n)] *)
Fixpoint take (n : nat) (s : string) : string :=
  match n, s with
  | S k, String c r => String c (take k r)
  | _, _ => ""
  end.

(** [s.startsWith(p)] *)
Fixpoint starts_with (p s : string) : bool :=
  match p, s with
  | "", _ => true
  | String a p', String b s' => eqc a b && starts_with p' s'
  | String _ _, "" => false
  end.

(** [s.includes(needle)] *)
Fixpoint includes (needle s : string) : bool :=
  starts_with needle s ||
  match s with
  | "" => false
  | String _ r => includes needle r
  end.

(** [String.prototype.toLowerCase] on Latin-1 code units: A-Z and the
    accented capitals U+00C0..U+00DE (the multiplication sign U+00D7 apart)
    move up by 32; every other code unit is kept. *)
Definition lower_char (c : ascii) : ascii :=
  let n := code c in
  if between 65 90 n then ascii_of_nat (n + 32)
  else if between 192 222 n && negb (Nat.eqb n 215) then ascii_of_nat (n + 32)
  else c.

Fixpoint toLowerCase (s : string) : string :=
  match s with
  | "" => ""
  | String c r => String (lower_char c) (toLowerCase r)
  end.

(** White space of [String.prototype.trim] among Latin-1 code units:
    TAB, LF, VT, FF, CR, SPACE and NBSP. *)
Definition is_space (c : ascii) : bool :=
  let n := code c in
  between 9 13 n || Nat.eqb n 32 || Nat.eqb n 160.

Fixpoint trim_start (s : string) : string :=
  match s with
  | "" => ""
  | String c r => if is_space c then trim_start r else s
  end.

Fixpoint trim_end (s : string) : string :=
  match s with
  | "" => ""
  | String c r =>
      match trim_end r with
      | "" => if is_space c then "" else String c ""
      | r' => String c r'
      end
  end.

(** [s.trim()] *)
Definition trim (s : string) : string := trim_end (trim_start s).

Fixpoint has_char (x : ascii) (s : string) : bool :=
  match s with
  | "" => false
  | String c r => eqc c x || has_char x r
  end.

(** [s.replace(/<[^>]*>/g, '')]: a ['<'] opens a match exactly when some
    ['>'] follows it, and the match runs up to the first such ['>'];
    matched text is dropped, everything else is kept. *)
Fixpoint strip_from (inside : bool) (s : string) : string :=
  match s with
  | "" => ""
  | String c r =>
      if inside then
        (if eqc c ">" then strip_from false r else strip_from true r)
      else if eqc c "<" && has_char ">" r then strip_from true r
      else String c (strip_from false r)
  end.

Definition strip_tags (s : string) : string := strip_from false s.

(** The double quote, code unit 34. *)
Definition dquote : ascii := ascii_of_nat 34.

Definition is_quote (c : ascii) : bool := eqc c dquote || eqc c "'".

Definition starts_with_quote (s : string) : bool :=
  match s with
  | String c _ => is_quote c
  | "" => false
  end.

Fixpoint ends_with_quote (s : string) : bool :=
  match s with
  | "" => false
  | String c "" => is_quote c
  | String _ r => ends_with_quote r
  end.

Fixpoint drop_last_quote (s : string) : string :=
  match s with
  | "" => ""
  | String c "" => if is_quote c then "" else s
  | String c r => String c (drop_last_quote r)
  end.

(** [s.replace(/^["']|["']$/g, '')]: the first alternative removes a quote
    at index 0, the second one a quote at the last index of what is left;
    each is tried on its own. *)
Definition strip_quotes (s : string) : string :=
  match s with
  | String c r => if is_quote c then drop_last_quote r else drop_last_quote s
  | "" => ""
  end.

(** The truncation every description goes through:
    [if (s.length > max) s = s.substring(0, max - 3) + '...'] *)
Definition ellipsize (max : nat) (s : string) : string :=
  if Nat.ltb max (len s) then take (max - 3) s +:+ "..." else s.

End Str.


(** ** Abstract operations of the language *)

Module JS.

(** ToBoolean *)
Definition truthy (v : value) : bool :=
  match v with
  | VUndefined | VNull => false
  | VBool b => b
  | VNum n => nonzero n
  | VStr s => negb (Nat.eqb (Str.len s) 0)
  | VArr _ | VObj _ => true
  end.

(** The number [z], for an integer of magnitude below 10^21: Number::toString
    prints those with all their digits and no exponent. *)
Definition int (z : Z) : number :=
  Number (negb (z =? 0)%Z) (NilZero.string_of_int (Z.to_int z)) (λ k, (k <? z)%Z).

(** ToPrimitive finds no callable [toString] or [valueOf]. *)
Definition no_primitive : error := Error "Cannot convert object to primitive value".

(** ToString, as applied by template literals and by [+] with a string.
    The values are data (parsed JSON, rows, error records): an object holds
    no function, so an own [toString] key shadows [Object.prototype.toString]
    with something that cannot be called, [valueOf] gives back the object,
    and the conversion throws a [TypeError].  An array joins the texts of its
    elements, [undefined] and [null] giving the empty text. *)
Fixpoint to_string (v : value) : outcome string :=
  match v with
  | VUndefined => Ok "undefined"
  | VNull => Ok "null"
  | VBool b => Ok (if b then "true" else "false")
  | VNum n => Ok (numeral n)
  | VStr s => Ok s
  | VArr l =>
      (fix join (l : list value) : outcome string :=
         match l with
         | [] => Ok ""
         | e :: r =>
             match match e with
                   | VUndefined | VNull => Ok ""
                   | _ => to_string e
                   end with
             | Throw err => Throw err
             | Ok s =>
                 match r with
                 | [] => Ok s
                 | _ => match join r with
                        | Throw err => Throw err
                        | Ok t => Ok (s +:+ "," +:+ t)
                        end
                 end
             end
         end) l
  | VObj o =>
      match o !! "toString" with
      | Some _ => Throw no_primitive
      | None => Ok "[object Object]"
      end
  end.

(** [a || b] *)
Definition or_else (a b : value) : value := if truthy a then a else b.

(** [v === 'lit'] *)
Definition is_str (v : value) (lit : string) : bool :=
  match v with
  | VStr s => String.eqb s lit
  | _ => false
  end.

(** The message of the TypeError raised by reading property [k] of
    [undefined] or [null]. *)
Definition cannot_read (v : value) (k : string) : error :=
  Error ("Cannot read properties of "
         +:+ match v with VNull => "null" | _ => "undefined" end
         +:+ " (reading '" +:+ k +:+ "')").

(** [v.k] for the data properties the source reads (none of them is
    inherited from a prototype, [length] apart). *)
Definition get (v : value) (k : string) : outcome value :=
  match v with
  | VUndefined | VNull => Throw (cannot_read v k)
  | VObj o => Ok (default VUndefined (o !! k))
  | VStr s =>
      Ok (if String.eqb k "length" then VNum (int (Z.of_nat (Str.len s))) else VUndefined)
  | VArr l =>
      Ok (if String.eqb k "length" then VNum (int (Z.of_nat (length l))) else VUndefined)
  | VBool _ | VNum _ => Ok VUndefined
  end.

(** [v?.k] *)
Definition get_opt (v : value) (k : string) : value :=
  match get v k with
  | Ok x => x
  | Throw _ => VUndefined
  end.

(** The TypeError of calling a method that the receiver does not have. *)
Definition not_a_function (expr : string) : error :=
  Error (expr +:+ " is not a function").

(** *** StringToNumber, as far as [> 10] can tell *)

(** What a numeric string denotes: [Finite neg m e] is [m * 10^e], negated
    when [neg]. *)
Inductive literal : Type :=
  | NaN
  | Infinite (negative : bool)
  | Finite (negative : bool) (mantissa exponent : Z).

Definition digit (radix : nat) (c : ascii) : option Z :=
  let n := Str.code c in
  let d := if Str.between 48 57 n then Some (n - 48)
           else if Str.between 97 102 n then Some (n - 87)
           else if Str.between 65 70 n then Some (n - 55)
           else None in
  match d with
  | Some k => if Nat.ltb k radix then Some (Z.of_nat k) else None
  | None => None
  end.

(** The longest run of decimal digits at the start of [s]: its value on top
    of [acc], its length on top of [count], and what follows it. *)
Fixpoint read_digits (acc : Z) (count : nat) (s : string) : Z * nat * string :=
  match s with
  | "" => (acc, count, "")
  | String c r =>
      match digit 10 c with
      | Some d => read_digits (10 * acc + d)%Z (S count) r
      | None => (acc, count, s)
      end
  end.

(** The digits of a [0x], [0o] or [0b] literal: all of [s], and at least one. *)
Fixpoint radix_value (radix : nat) (acc : Z) (s : string) : option Z :=
  match s with
  | "" => Some acc
  | String c r =>
      match digit radix c with
      | Some d => radix_value radix (Z.of_nat radix * acc + d)%Z r
      | None => None
      end
  end.

Definition radix_literal (radix : nat) (s : string) : literal :=
  match s with
  | "" => NaN
  | _ => match radix_value radix 0 s with
         | Some m => Finite false m 0
         | None => NaN
         end
  end.

(** [ExponentPart]: [e] or [E], an optional sign, and digits to the end. *)
Definition exponent_part (s : string) : option Z :=
  match s with
  | String c r =>
      if Str.eqc c "e" || Str.eqc c "E" then
        let '(negative, r') :=
          match r with
          | String d r' =>
              if Str.eqc d "-" then (true, r')
              else if Str.eqc d "+" then (false, r')
              else (false, r)
          | "" => (false, r)
          end in
        match read_digits 0 0 r' with
        | (_, O, _) => None
        | (x, _, "") => Some (if negative then - x else x)%Z
        | _ => None
        end
      else None
  | "" => Some 0%Z
  end.

(** [StrUnsignedDecimalLiteral] *)
Definition unsigned_literal (negative : bool) (s : string) : literal :=
  if String.eqb s "Infinity" then Infinite negative else
  let '(whole, n_whole, after_whole) := read_digits 0 0 s in
  let '(m, n_fraction, after_fraction) :=
    match after_whole with
    | String c r => if Str.eqc c "." then read_digits whole 0 r else (whole, 0, after_whole)
    | "" => (whole, 0, after_whole)
    end in
  if Nat.eqb (n_whole + n_fraction) 0 then NaN else
  match exponent_part after_fraction with
  | Some e => Finite negative m (e - Z.of_nat n_fraction)
  | None => NaN
  end.

(** StringToNumber before rounding. *)
Definition string_to_number (s : string) : literal :=
  match Str.trim s with
  | "" => Finite false 0 0
  | String c r as t =>
      if Str.eqc c "-" then unsigned_literal true r
      else if Str.eqc c "+" then unsigned_literal false r
      else if Str.eqc c "0" then
        match r with
        | String x digits =>
            if Str.eqc x "x" || Str.eqc x "X" then radix_literal 16 digits
            else if Str.eqc x "o" || Str.eqc x "O" then radix_literal 8 digits
            else if Str.eqc x "b" || Str.eqc x "B" then radix_literal 2 digits
            else unsigned_literal false t
        | "" => unsigned_literal false t
        end
      else unsigned_literal false t
  end.

(** Whether the number nearest to the literal (the correctly rounded one,
    which is what V8 computes) is greater than 10.  The number after 10 is
    10 + 2^-49, and a literal half way between the two rounds to 10 (ties
    go to the even significand): the literal has to be above 10 + 2^-50. *)
Definition literal_exceeds_10 (x : literal) : bool :=
  match x with
  | NaN => false
  | Infinite negative => negb negative
  | Finite negative m e =>
      negb negative
      && (if (0 <=? e)%Z
          then (10 * 2 ^ 50 + 1 <? m * 10 ^ e * 2 ^ 50)%Z
          else ((10 * 2 ^ 50 + 1) * 10 ^ (- e) <? m * 2 ^ 50)%Z)
  end.

(** [v > 10]: ToPrimitive (which an object or array answers with its text),
    then ToNumber, then the comparison; NaN is not greater than anything. *)
Definition exceeds_10 (v : value) : outcome bool :=
  match v with
  | VUndefined | VNull | VBool _ => Ok false
  | VNum n => Ok (above n 10)
  | VStr s => Ok (literal_exceeds_10 (string_to_number s))
  | VArr _ | VObj _ =>
      match to_string v with
      | Ok s => Ok (literal_exceeds_10 (string_to_number s))
      | Throw e => Throw e
      end
  end.

End JS.

(** ** Effects: traces of external calls, and the world that answers them *)

(** One entry per call to a collaborator, in the order of the calls.
    Console output is recorded too, by its level only. *)
Inductive event : Type :=
  | Console (level : string)
  | GenerateContent (prompt : string)
  | GetCookies
  | CreateClient
  | SelectSingle (table : string) (id : value)
  | UpdateRow (table : string) (id : value) (patch : value)
  | Bundle
  | SelectComposition (props : value)
  | RenderMedia (output : string) (props : value)
  | ReadFile (path : string)
  | Upload (path : string)
  | GetPublicUrl (path : string)
  | Unlink (path : string).

(** A computation: the calls it made, and how it ended. *)
Definition M (A : Type) : Type := (list event * outcome A)%type.

#[export] Instance M_ret : MRet M := λ A a, ([], Ok a).

#[export] Instance M_bind : MBind M := λ A B f m,
  match m with
  | (t, Ok a) => let '(t', r) := f a in (t ++ t', r)
  | (t, Throw e) => (t, Throw e)
  end.

(** A step without external calls. *)
Definition lift {A : Type} (o : outcome A) : M A := ([], o).

(** An external call and its answer. *)
Definition call {A : Type} (ev : event) (answer : outcome A) : M A := ([ev], answer).

Definition console (level : string) : M unit := ([Console level], Ok tt).

(** [try { body } catch (error) { handler }] *)
Definition try_catch {A : Type} (body : M A) (handler : error → M A) : M A :=
  match body with
  | (t, Throw e) => let '(t', r) := handler e in (t ++ t', r)
  | (t, Ok a) => (t, Ok a)
  end.

Definition trace {A : Type} (m : M A) : list event := m.1.
Definition result {A : Type} (m : M A) : outcome A := m.2.

(** The answer [{ data, error }] of a data-store query. *)
Record query : Type := Query { data : value; query_error : value }.

Record World : Type := {
  (** [process.env[name]]: a string, or [undefined] *)
  env : string → value;
  (** [Date.now()] at the start of the request, when the file is named,
      and when the response is written: whole milliseconds, far below
      10^21, which print as plain decimal numerals *)
  now_start : Z;
  now_file : Z;
  now_end : Z;
  (** [(ms / 1000).toFixed(2)] *)
  seconds_fixed2 : Z → string;
  (** [error.stack] *)
  stack_of : error → value;
  (** [path.join('/tmp', name)] *)
  tmp_path : string → string;
  (** [model.generateContent(prompt)] followed by [response.text()] *)
  generate_content : string → outcome string;
  (** [cookies()] *)
  get_cookies : outcome unit;
  (** [createRouteHandlerClient({..})] *)
  create_client : outcome unit;
  (** [supabase.from(table).select(..).eq('id', id).single()] *)
  select_single : string → value → outcome query;
  (** the [error] of [supabase.from(table).update(patch).eq('id', id)] *)
  update_row : string → value → value → outcome value;
  (** [bundle({..})]: the bundle location *)
  bundle : outcome string;
  (** [selectComposition({..})] *)
  select_composition : string → value → outcome value;
  (** [renderMedia({..})], the progress lines its callback prints included *)
  render_media : string → value → outcome unit;
  (** [fs.readFileSync(path)] *)
  read_file : string → outcome string;
  (** the [error] of [supabase.storage.from('listings').upload(path, ..)] *)
  upload : string → string → outcome value;
  (** [publicUrl] of [getPublicUrl(path)] *)
  public_url : string → value;
  (** [fs.unlinkSync(path)] *)
  unlink : string → outcome unit
}.


(** ** [src/utils/generateDescription.js] *)

Module Description.

Definition nl : string := String (ascii_of_nat 10) "".

(** [category.toLowerCase()] where [category] may be any value *)
Definition lower_of (expr : string) (v : value) : outcome string :=
  match v with
  | VStr s => Ok (Str.toLowerCase s)
  | _ => Throw (JS.not_a_function (expr +:+ ".toLowerCase"))
  end.

(** [condition ? condition + ' condition.' : otherwise] *)
Definition condition_or (condition : value) (otherwise : string) : outcome string :=
  if JS.truthy condition then
    text ← JS.to_string condition;
    mret (text +:+ " condition.")
  else mret otherwise.

(** [const { title, specifications } = listing] *)
Definition destructure_listing (listing : value) : outcome value :=
  match listing with
  | VUndefined => throw "Cannot destructure property 'title' of 'listing' as it is undefined."
  | VNull => throw "Cannot destructure property 'title' of 'listing' as it is null."
  | _ => Ok (JS.get_opt listing "specifications")
  end.

(** Each template converts its substitutions from left to right. *)
Definition generateFallbackDescription (listing : value) : outcome string :=
  specifications ← destructure_listing listing;
  let category := JS.or_else (JS.get_opt specifications "category") (VStr "precious metal") in
  let condition := JS.or_else (JS.get_opt specifications "condition") (VStr "") in
  let purity := JS.or_else (JS.get_opt specifications "purity") (VStr "") in
  let year := JS.or_else (JS.get_opt specifications "year") (VStr "") in
  description ←
    (if JS.truthy purity && JS.truthy year then
       p ← JS.to_string purity;
       lowered ← lower_of "category" category;
       y ← JS.to_string year;
       ending ← condition_or condition "Exceptional quality.";
       mret (p +:+ " purity " +:+ lowered +:+ " from " +:+ y +:+ ". " +:+ ending)
     else if JS.truthy purity then
       p ← JS.to_string purity;
       lowered ← lower_of "category" category;
       ending ← condition_or condition "Investment grade.";
       mret ("Premium " +:+ p +:+ " purity " +:+ lowered +:+ ". " +:+ ending)
     else if JS.truthy year then
       lowered ← lower_of "category" category;
       y ← JS.to_string year;
       ending ← condition_or condition "Excellent specimen.";
       mret ("Collectible " +:+ lowered +:+ " from " +:+ y +:+ ". " +:+ ending)
     else
       lowered ← lower_of "category" category;
       ending ← condition_or condition "Quality guaranteed.";
       mret ("Beautiful " +:+ lowered +:+ " piece. " +:+ ending));
  mret (Str.ellipsize 120 description).

Definition generateFallbackDetailed (listing : value) : outcome string :=
  specifications ← JS.get listing "specifications";
  let category := JS.or_else (JS.get_opt specifications "category") (VStr "precious metal") in
  lowered ← lower_of "category" category;
  mret ("Discover this exceptional " +:+ lowered +:+ " piece.").

(** [listing.description ? listing.description.replace(/<[^>]*>/g, '').trim() : ''] *)
Definition plain_description (listing : value) : outcome string :=
  description ← JS.get listing "description";
  if JS.truthy description then
    match description with
    | VStr s => Ok (Str.trim (Str.strip_tags s))
    | _ => Throw (JS.not_a_function "listing.description.replace")
    end
  else Ok "".

(** The prompt sent for the call-to-action sentence. *)
Definition detailed_prompt (listing : value) : outcome string :=
  plainDescription ← plain_description listing;
  title ← JS.get listing "title";
  product ← JS.to_string title;
  specifications ← JS.get listing "specifications";
  category ←
    JS.to_string (JS.or_else (JS.get_opt specifications "category") (VStr "Precious Metal"));
  let context :=
    Str.trim
      (nl +:+ "Product: " +:+ product +:+ nl
       +:+ "Category: " +:+ category +:+ nl
       +:+ "Details: "
       +:+ (if Nat.eqb (Str.len plainDescription) 0
            then "Quality precious metal item" else plainDescription)
       +:+ nl) in
  mret ("Write a compelling single sentence (max 80 characters) for a video showcasing this precious metal product:"
        +:+ nl +:+ nl +:+ context +:+ nl +:+ nl
        +:+ "The sentence should:" +:+ nl
        +:+ "- Be short and punchy" +:+ nl
        +:+ "- Highlight value or appeal" +:+ nl
        +:+ "- Sound premium/luxury" +:+ nl
        +:+ "- NO emojis or hashtags" +:+ nl
        +:+ "- Make viewers want to learn more" +:+ nl +:+ nl
        +:+ "Generate ONLY the sentence, nothing else.").

Definition generateDetailedDescription (w : World) (listing : value) : M string :=
  try_catch
    (if negb (JS.truthy (env w "NEXT_PUBLIC_GEMINI_API_KEY")) then
       lift (generateFallbackDetailed listing)
     else
       prompt ← lift (detailed_prompt listing);
       text ← call (GenerateContent prompt) (generate_content w prompt);
       let description := Str.strip_quotes (Str.trim text) in
       mret (Str.ellipsize 80 description))
    (λ error,
       _ ← console "error";
       lift (generateFallbackDetailed listing)).

End Description.

(** ** Object literals and HTTP responses *)

(** [{ k1: v1, k2: v2, .. }] *)
Definition obj (fields : list (string * value)) : value :=
  VObj (list_to_map fields).

(** What an entry point answers: [status] and the value handed to [json]. *)
Record response : Type := Response { status : Z; body : value }.

(** [body.k], when the body is an object that has the key. *)
Definition field (r : response) (k : string) : option value :=
  match body r with
  | VObj o => o !! k
  | _ => None
  end.

(** Calls that leave the process (console output does not). *)
Definition is_external (ev : event) : bool :=
  match ev with
  | Console _ => false
  | _ => true
  end.

Definition is_unlink (ev : event) : bool :=
  match ev with
  | Unlink _ => true
  | _ => false
  end.

Definition is_generate (ev : event) : bool :=
  match ev with
  | GenerateContent _ => true
  | _ => false
  end.

(** The profile used when the seller cannot be fetched. *)
Definition fallback_seller_webhook : value :=
  obj [("username", VStr "peermetals_seller"); ("full_name", VStr "PeerMetals Seller");
       ("avatar_url", VNull); ("reputation", VNum (JS.int 0)); ("is_verified", VBool false)].

Definition fallback_seller_render : value :=
  obj [("username", VStr "peermetals_seller"); ("full_name", VStr "PeerMetals Seller")].

(** [listing.weight ? `${listing.weight} oz` : undefined] *)
Definition weight_label (weight : value) : outcome value :=
  if JS.truthy weight then
    text ← JS.to_string weight;
    mret (VStr (text +:+ " oz"))
  else mret VUndefined.

(** The [specifications] literal that both entry points build. *)
Definition specifications_of (listing : value) : outcome value :=
  tier1 ← JS.get listing "tier1_category";
  tier2 ← JS.get listing "tier2_category";
  condition ← JS.get listing "condition";
  weight ← JS.get listing "weight";
  label ← weight_label weight;
  purity ← JS.get listing "purity";
  year ← JS.get listing "year";
  mret (obj [("category", JS.or_else tier1 tier2);
             ("condition", condition);
             ("weight", label);
             ("purity", purity);
             ("year", year)]).

(** [`listing-${listing.id}-${Date.now()}.mp4`] *)
Definition video_file_name (w : World) (listing : value) : outcome string :=
  id ← JS.get listing "id";
  text ← JS.to_string id;
  mret ("listing-" +:+ text +:+ "-" +:+ numeral (JS.int (now_file w)) +:+ ".mp4").

(** ** [webhook/route.js] *)

Module Webhook.

Definition validateWebhookPayload (body : value) : M bool :=
  try_catch
    (lift
       (type ← JS.get body "type";
        if negb (JS.truthy type) || negb (JS.is_str type "INSERT") then
          throw "Invalid webhook type - only INSERT events are supported"
        else
        table ← JS.get body "table";
        if negb (JS.truthy table) || negb (JS.is_str table "listings") then
          throw "Invalid table - only listings table is supported"
        else
        record ← JS.get body "record";
        if negb (JS.truthy record) then
          throw "Missing record data in webhook payload"
        else
        status ← JS.get record "status";
        if negb (JS.is_str status "active") then
          text ← JS.to_string status;
          throw ("Listing status '" +:+ text +:+ "' not active - skipping video generation")
        else
        id ← JS.get record "id";
        if negb (JS.truthy id) then throw "Missing listing ID" else
        title ← JS.get record "title";
        if negb (JS.truthy title) then throw "Missing listing title" else
        user_id ← JS.get record "user_id";
        if negb (JS.truthy user_id) then throw "Missing user ID" else
        mret true))
    (λ error,
       _ ← console "error";
       lift (Throw error)).

Definition generateListingDescription (listing : value) : M string :=
  try_catch
    (lift
       (description ← JS.get listing "description";
        long ← (if JS.truthy description
                then n ← JS.get description "length"; JS.exceeds_10 n
                else mret false);
        if long : bool then
          match description with
          | VStr s =>
              let plainText := Str.strip_tags s in
              mret (Str.ellipsize 150 plainText)
          | _ => Throw (JS.not_a_function "listing.description.replace")
          end
        else
          tier1 ← JS.get listing "tier1_category";
          category ← JS.to_string (JS.or_else tier1 (VStr "precious metal"));
          mret ("Discover this exquisite " +:+ category +:+ " item. Quality guaranteed.")))
    (λ error,
       _ ← console "error";
       mret "Premium precious metal item available now.").

(** [process.env.NEXT_PUBLIC_APP_URL ? `${..}/peermetals.png` : 'https://peermetals.com/peermetals.png'] *)
Definition logoUrl (w : World) : outcome value :=
  let base := env w "NEXT_PUBLIC_APP_URL" in
  if JS.truthy base then
    text ← JS.to_string base;
    mret (VStr (text +:+ "/peermetals.png"))
  else mret (VStr "https://peermetals.com/peermetals.png").

Definition generateVideoReel (w : World) (listing sellerProfile : value) : M value :=
  try_catch
    (title ← lift (JS.get listing "title");
     _ ← lift (JS.to_string title);
     _ ← console "log";
     listingDescription ← generateListingDescription listing;
     images ← lift (JS.get listing "images");
     specifications ← lift (specifications_of listing);
     full_name ← lift (JS.get sellerProfile "full_name");
     username ← lift (JS.get sellerProfile "username");
     logo ← lift (logoUrl w);
     let videoData :=
       obj [("listingTitle", JS.or_else title (VStr "New Listing"));
            ("listingDescription", VStr listingDescription);
            ("images", JS.or_else images (VArr []));
            ("specifications", specifications);
            ("sellerName", JS.or_else full_name username);
            ("logoUrl", logo)] in
     _ ← console "log";
     _ ← call GetCookies (get_cookies w);
     _ ← call CreateClient (create_client w);
     videoFileName ← lift (video_file_name w listing);
     let videoPath := "video-reels/" +:+ videoFileName in
     _ ← console "log";
     _ ← console "log";
     mret (obj [("success", VBool true);
                ("videoPath", VStr videoPath);
                ("videoData", videoData);
                ("message", VStr "Video generation queued successfully")]))
    (λ error,
       _ ← lift (JS.get listing "id");
       _ ← lift (JS.get listing "title");
       _ ← console "error";
       mret VNull).

(** The [catch] block of [POST]. *)
Definition on_error (e : error) : M response :=
  let msg := message e in
  if Str.includes "not active" msg
     || Str.includes "only INSERT events" msg
     || Str.includes "only listings table" msg
  then
    _ ← console "log";
    mret (Response 200 (obj [("success", VBool true);
                             ("message", VStr "Webhook skipped");
                             ("reason", VStr msg)]))
  else
    _ ← console "error";
    mret (Response (if Str.includes "Missing" msg then 400 else 500)
                   (obj [("success", VBool false); ("error", VStr msg)])).

(** The [try] block of [POST]; [req_json] is what [await req.json()] gives. *)
Definition process (w : World) (req_json : outcome value) : M response :=
  body ← lift req_json;
  _ ← console "log";
  _ ← validateWebhookPayload body;
  listing ← lift (JS.get body "record");
  _ ← call GetCookies (get_cookies w);
  _ ← call CreateClient (create_client w);
  user_id ← lift (JS.get listing "user_id");
  profile ← call (SelectSingle "profiles" user_id) (select_single w "profiles" user_id);
  seller ← (if JS.truthy (query_error profile) || negb (JS.truthy (data profile))
            then
              _ ← lift (JS.to_string (JS.get_opt (query_error profile) "message"));
              _ ← console "log";
              mret fallback_seller_webhook
            else mret (data profile));
  title ← lift (JS.get listing "title");
  _ ← lift (JS.to_string title);
  full_name ← lift (JS.get seller "full_name");
  username ← lift (JS.get seller "username");
  _ ← lift (JS.to_string (JS.or_else full_name username));
  _ ← console "log";
  videoResult ← generateVideoReel w listing seller;
  if negb (JS.truthy videoResult) then lift (throw "Failed to generate video reel") else
  id ← lift (JS.get listing "id");
  videoPath ← lift (JS.get videoResult "videoPath");
  videoData ← lift (JS.get videoResult "videoData");
  mret (Response 200 (obj [("success", VBool true);
                           ("message", VStr "Video reel generation queued successfully");
                           ("listingId", id);
                           ("videoPath", videoPath);
                           ("videoData", videoData)])).

Definition POST (w : World) (req_json : outcome value) : M response :=
  try_catch (process w req_json) on_error.

End Webhook.

(** ** [api/render-video.js] *)

Module Render.

Record request : Type := Request { method : string; req_body : value }.

(** [const { listingId, listingData } = req.body] *)
Definition destructure_body (b : value) : outcome (value * value) :=
  match b with
  | VUndefined =>
      throw "Cannot destructure property 'listingId' of 'req.body' as it is undefined."
  | VNull =>
      throw "Cannot destructure property 'listingId' of 'req.body' as it is null."
  | _ => Ok (JS.get_opt b "listingId", JS.get_opt b "listingData")
  end.

(** [((Date.now() - startTime) / 1000).toFixed(2)] *)
Definition totalTime (w : World) : string :=
  seconds_fixed2 w (now_end w - now_start w).

(** Lines 47-63: the listing is the inline payload, or the row fetched by id. *)
Definition resolve_listing (w : World) (listingId listingData : value) : M value :=
  if JS.truthy listingId && negb (JS.truthy listingData) then
    _ ← lift (JS.to_string listingId);
    _ ← console "log";
    q ← call (SelectSingle "listings" listingId) (select_single w "listings" listingId);
    if JS.truthy (query_error q) || negb (JS.truthy (data q)) then
      reason ← lift (JS.to_string (JS.get_opt (query_error q) "message"));
      lift (throw ("Failed to fetch listing: " +:+ reason))
    else mret (data q)
  else mret listingData.

(** Lines 80-90: the argument of [generateDetailedDescription]. *)
Definition description_input (listing : value) : outcome value :=
  title ← JS.get listing "title";
  description ← JS.get listing "description";
  tier1 ← JS.get listing "tier1_category";
  tier2 ← JS.get listing "tier2_category";
  condition ← JS.get listing "condition";
  weight ← JS.get listing "weight";
  purity ← JS.get listing "purity";
  year ← JS.get listing "year";
  mret (obj [("title", title);
             ("description", description);
             ("specifications",
              obj [("category", JS.or_else tier1 tier2);
                   ("condition", condition);
                   ("weight", weight);
                   ("purity", purity);
                   ("year", year)])]).

(** Lines 78-106: the description and the input bag of the composition. *)
Definition prepare_props (w : World) (listing seller : value) : M value :=
  _ ← console "log";
  input ← lift (description_input listing);
  aiDescription ← Description.generateDetailedDescription w input;
  title ← lift (JS.get listing "title");
  images ← lift (JS.get listing "images");
  specifications ← lift (specifications_of listing);
  full_name ← lift (JS.get seller "full_name");
  username ← lift (JS.get seller "username");
  mret (obj [("listingTitle", title);
             ("listingDescription", VStr aiDescription);
             ("images", JS.or_else images (VArr []));
             ("specifications", specifications);
             ("sellerName", JS.or_else full_name username);
             ("logoUrl", VStr "https://peermetals.com/peermetals.png")]).

(** Lines 154-199: upload, public URL, record update, cleanup, answer. *)
Definition publish (w : World) (listing : value) (outputFileName outputPath : string)
    : M response :=
  _ ← console "log";
  videoBuffer ← call (ReadFile outputPath) (read_file w outputPath);
  let storagePath := "video-reels/" +:+ outputFileName in
  uploadError ← call (Upload storagePath) (upload w storagePath videoBuffer);
  if JS.truthy uploadError then
    msg ← lift (JS.get uploadError "message");
    reason ← lift (JS.to_string msg);
    lift (throw ("Upload failed: " +:+ reason))
  else
  publicUrl ← call (GetPublicUrl storagePath) (Ok (public_url w storagePath));
  _ ← lift (JS.to_string publicUrl);
  _ ← console "log";
  id ← lift (JS.get listing "id");
  let patch := obj [("video_url", publicUrl)] in
  updateError ← call (UpdateRow "listings" id patch) (update_row w "listings" id patch);
  _ ← (if JS.truthy updateError then console "error" else mret tt);
  _ ← call (Unlink outputPath) (unlink w outputPath);
  _ ← console "log";
  mret (Response 200 (obj [("success", VBool true);
                           ("videoUrl", publicUrl);
                           ("listingId", id);
                           ("renderTime", VStr (totalTime w));
                           ("message", VStr "Video rendered and uploaded successfully")])).

(** The [try] block, from the point where a listing is known. *)
Definition pipeline (w : World) (listing : value) : M response :=
  user_id ← lift (JS.get listing "user_id");
  _ ← lift (JS.to_string user_id);
  _ ← console "log";
  profile ← call (SelectSingle "profiles" user_id) (select_single w "profiles" user_id);
  let seller := JS.or_else (data profile) fallback_seller_render in
  videoInputProps ← prepare_props w listing seller;
  _ ← console "log";
  bundleLocation ← call Bundle (bundle w);
  _ ← console "log";
  composition ←
    call (SelectComposition videoInputProps)
         (select_composition w bundleLocation videoInputProps);
  composition_id ← lift (JS.get composition "id");
  _ ← lift (JS.to_string composition_id);
  frames ← lift (JS.get composition "durationInFrames");
  _ ← lift (JS.to_string frames);
  _ ← console "log";
  outputFileName ← lift (video_file_name w listing);
  let outputPath := tmp_path w outputFileName in
  _ ← console "log";
  _ ← console "log";
  _ ← call (RenderMedia outputPath videoInputProps) (render_media w outputPath videoInputProps);
  _ ← console "log";
  publish w listing outputFileName outputPath.

(** The [try] block. *)
Definition attempt (w : World) (req : request) : M response :=
  '(listingId, listingData) ← lift (destructure_body (req_body req));
  if negb (JS.truthy listingId) && negb (JS.truthy listingData) then
    mret (Response 400
            (obj [("error", VStr "Missing required parameter: listingId or listingData")]))
  else
    listing ← resolve_listing w listingId listingData;
    pipeline w listing.

(** The [catch] block. *)
Definition failure_response (w : World) (e : error) : M response :=
  _ ← console "error";
  mret (Response 500
          (obj [("success", VBool false);
                ("error", VStr (message e));
                ("stack", if JS.is_str (env w "NODE_ENV") "development"
                          then stack_of w e else VUndefined);
                ("renderTime", VStr (totalTime w))])).

Definition handler (w : World) (req : request) : M response :=
  if negb (String.eqb (method req) "POST") then
    mret (Response 405 (obj [("error", VStr "Method not allowed")]))
  else
    _ ← console "log";
    try_catch (attempt w req) (failure_response w).

End Render.


(** ** Reading traces and results *)

(** The paths handed to [fs.unlinkSync], in order. *)
Fixpoint unlinked (t : list event) : list string :=
  match t with
  | [] => []
  | Unlink path :: r => path :: unlinked r
  | _ :: r => unlinked r
  end.

(** The input bags handed to [selectComposition], in order. *)
Fixpoint selected_props (t : list event) : list value :=
  match t with
  | [] => []
  | SelectComposition props :: r => props :: selected_props r
  | _ :: r => selected_props r
  end.

(** The files [renderMedia] was asked to write, in order. *)
Fixpoint rendered (t : list event) : list string :=
  match t with
  | [] => []
  | RenderMedia output _ :: r => output :: rendered r
  | _ :: r => rendered r
  end.

(** The own property [k] of an object: [None] when the object has no such
    key, [Some VUndefined] when it has the key and the key holds
    [undefined]. *)
Definition own (v : value) (k : string) : option value :=
  match v with
  | VObj o => o !! k
  | _ => None
  end.

(** A request body that can be read and holds neither a [listingId] nor a
    [listingData] that counts as given. *)
Definition missing_both (b : value) : bool :=
  match b with
  | VUndefined | VNull => false
  | _ => negb (JS.truthy (JS.get_opt b "listingId"))
         && negb (JS.truthy (JS.get_opt b "listingData"))
  end.

(** [v.a.b.c], [undefined] as soon as a step has nothing to read *)
Definition path_opt (v : value) (keys : list string) : value :=
  foldl JS.get_opt v keys.

(** ** The quote rule as the specification words it *)

(** Follows the specification's words, not the code: "strip a single pair of
    leading/trailing quote characters if the service wrapped its answer in
    them".  Compared with [Str.strip_quotes] below. *)
Definition strip_wrapping_pair_spec (s : string) : string :=
  match s with
  | String q rest =>
      if Str.is_quote q && Str.ends_with_quote rest
      then Str.drop_last_quote rest
      else s
  | "" => ""
  end.

(** ** Sample worlds, requests and listings *)

Module Sample.

(** Seconds with two decimals, for a whole number of centiseconds. *)
Definition fixed2 (ms : Z) : string :=
  let cents := (ms / 10 mod 100)%Z in
  numeral (JS.int (ms / 1000)) +:+ "."
    +:+ (if (cents <? 10)%Z then "0" else "") +:+ numeral (JS.int cents).

(** A world built from the answers that vary between the scenarios. *)
Definition world
    (environment : string → value)
    (generated : outcome string)
    (listing_row profile_row : outcome query)
    (cookie_store : outcome unit)
    (uploaded updated : outcome value) : World :=
  {| env := environment;
     now_start := 1700000000000;
     now_file := 1700000030000;
     now_end := 1700000045230;
     seconds_fixed2 := fixed2;
     stack_of := λ e, VStr ("Error: " +:+ message e);
     tmp_path := λ name, "/tmp/" +:+ name;
     generate_content := λ _, generated;
     get_cookies := cookie_store;
     create_client := Ok tt;
     select_single := λ table _,
       if String.eqb table "listings" then listing_row else profile_row;
     update_row := λ _ _ _, updated;
     bundle := Ok "/tmp/remotion-bundle";
     select_composition := λ _ _,
       Ok (obj [("id", VStr "ListingReel"); ("durationInFrames", VNum (JS.int 780))]);
     render_media := λ _ _, Ok tt;
     read_file := λ _, Ok "mp4-bytes";
     upload := λ _ _, uploaded;
     public_url := λ path, VStr ("https://storage.example/listings/" +:+ path);
     unlink := λ _, Ok tt |}.

Definition no_env : string → value := λ _, VUndefined.

Definition env_with (name text : string) : string → value :=
  λ k, if String.eqb k name then VStr text else VUndefined.

Definition no_row : outcome query :=
  Ok (Query VNull
        (obj [("code", VStr "PGRST116");
              ("message", VStr "JSON object requested, multiple (or no) rows returned")])).

Definition seller_row : outcome query :=
  Ok (Query (obj [("username", VStr "ann"); ("full_name", VStr "Ann Lee")]) VNull).

(** Every collaborator answers; no environment variable is set, so the
    text-generation service is not configured, and the store holds no
    listing row. *)
Definition healthy : World :=
  world no_env (Ok "A timeless piece.") no_row seller_row (Ok tt) (Ok VNull) (Ok VNull).

(** The scenario-2 envelope of the specification, with a given event type
    and status, and further fields of the record. *)
Definition record (status : string) (more : list (string * value)) : value :=
  obj ([("id", VStr "x"); ("title", VStr "T"); ("user_id", VStr "u");
        ("status", VStr status)] ++ more).

Definition envelope (type status : string) (more : list (string * value)) : value :=
  obj [("type", VStr type); ("table", VStr "listings"); ("record", record status more)].

(** The scenario-3 payload of the specification, with a weight of 1. *)
Definition inline_listing : value :=
  obj [("id", VStr "l1"); ("title", VStr "Gold Eagle"); ("user_id", VStr "u");
       ("images", VArr [VStr "https://img.example/1.jpg"; VStr "https://img.example/2.jpg"]);
       ("purity", VStr ".999"); ("year", VStr "2024"); ("weight", VNum (JS.int 1))].

Definition post (b : value) : Render.request := Render.Request "POST" b.

(** Storage refuses the upload. *)
Definition upload_fails : World :=
  world no_env (Ok "A timeless piece.") no_row seller_row (Ok tt)
        (Ok (obj [("message", VStr "Bucket not found")])) (Ok VNull).

(** The listing record cannot be updated. *)
Definition update_fails : World :=
  world no_env (Ok "A timeless piece.") no_row seller_row (Ok tt)
        (Ok VNull) (Ok (obj [("message", VStr "permission denied for table listings")])).

(** A deployment with its own base address. *)
Definition staging : World :=
  world (env_with "NEXT_PUBLIC_APP_URL" "https://staging.peermetals.com")
        (Ok "A timeless piece.") no_row seller_row (Ok tt) (Ok VNull) (Ok VNull).

(** The service is configured and opens its answer with a quote that it
    never closes. *)
Definition unclosed_quote : string := String Str.dquote "Hello".

Definition service_answers (text : string) : World :=
  world (env_with "NEXT_PUBLIC_GEMINI_API_KEY" "key")
        (Ok text) no_row seller_row (Ok tt) (Ok VNull) (Ok VNull).

(** The profile lookup fails with a message of its own. *)
Definition profile_lookup_throws : World :=
  world no_env (Ok "A timeless piece.") no_row
        (Throw (Error "Missing authorization header")) (Ok tt) (Ok VNull) (Ok VNull).

(** A description made of markup only, and a very long category. *)
Definition markup_only : value :=
  obj [("description", VStr "<p></p><br/>")].

Definition long_category : value :=
  obj [("tier1_category",
        VStr "Proof and uncirculated commemorative gold, silver, platinum and palladium coins, medals, rounds and bars of every mint and every year")].

(** A purity of 0 beside a year, and a category that is a number. *)
Definition zero_purity : value :=
  obj [("title", VStr "Gold Eagle");
       ("specifications", obj [("purity", VNum (JS.int 0)); ("year", VStr "2024")])].

Definition numeric_category : value :=
  obj [("title", VStr "Gold Eagle");
       ("specifications",
        obj [("purity", VStr ".999"); ("year", VStr "2024");
             ("category", VNum (JS.int 5))])].

(** A value that cannot be written as text: an object with a key named
    [toString]. *)
Definition unprintable : value := obj [("toString", VNum (JS.int 1))].

End Sample.

(** ** [generateVideoDescription], the short form of the description *)

Module VideoDescription.

(** [${listing.specifications?.k || fallback}], as the context block prints it *)
Definition spec_or (listing : value) (k fallback : string) : outcome string :=
  specifications ← JS.get listing "specifications";
  JS.to_string (JS.or_else (JS.get_opt specifications k) (VStr fallback)).

(** The prompt of lines 28-50. *)
Definition video_prompt (listing : value) : outcome string :=
  plainDescription ← Description.plain_description listing;
  title ← JS.get listing "title";
  product ← JS.to_string title;
  category ← spec_or listing "category" "Precious Metal";
  condition ← spec_or listing "condition" "N/A";
  weight ← spec_or listing "weight" "N/A";
  purity ← spec_or listing "purity" "N/A";
  year ← spec_or listing "year" "N/A";
  let nl := Description.nl in
  let context :=
    Str.trim
      (nl +:+ "Product Title: " +:+ product +:+ nl
       +:+ "Category: " +:+ category +:+ nl
       +:+ "Condition: " +:+ condition +:+ nl
       +:+ "Weight: " +:+ weight +:+ nl
       +:+ "Purity: " +:+ purity +:+ nl
       +:+ "Year: " +:+ year +:+ nl
       +:+ "Original Description: "
       +:+ (if Nat.eqb (Str.len plainDescription) 0
            then "No description provided" else plainDescription)
       +:+ nl) in
  mret ("You are writing a captivating description for a 10-second video reel showcasing a precious metal product."
        +:+ nl +:+ nl +:+ context +:+ nl +:+ nl
        +:+ "Create a short, engaging description (1-2 sentences, max 120 characters) that:" +:+ nl
        +:+ "- Highlights the most exciting or valuable aspects of this item" +:+ nl
        +:+ "- Uses descriptive, evocative language" +:+ nl
        +:+ "- Appeals to collectors, investors, or precious metal enthusiasts" +:+ nl
        +:+ "- Sounds professional but exciting" +:+ nl
        +:+ "- NO emojis, hashtags, or promotional language like "
        +:+ String Str.dquote "Shop Now" +:+ String Str.dquote "" +:+ nl
        +:+ "- Focus on the item's quality, rarity, history, or investment value" +:+ nl +:+ nl
        +:+ "Generate ONLY the description text, nothing else.").

Definition generateVideoDescription (w : World) (listing : value) : M string :=
  try_catch
    (if negb (JS.truthy (env w "NEXT_PUBLIC_GEMINI_API_KEY")) then
       _ ← console "warn";
       lift (Description.generateFallbackDescription listing)
     else
       prompt ← lift (video_prompt listing);
       text ← call (GenerateContent prompt) (generate_content w prompt);
       let description := Str.trim text in
       if Nat.ltb 150 (Str.len description) then
         mret (Str.take 147 description +:+ "...")
       else
         _ ← console "log";
         mret description)
    (λ error,
       _ ← console "error";
       lift (Description.generateFallbackDescription listing)).

End VideoDescription.

(** ** Reading traces, continued *)





(** The calls the webhook entry point can make. *)
Definition webhook_call (ev : event) : bool :=
  match ev with
  | Console _ | GetCookies | CreateClient => true
  | SelectSingle table _ => String.eqb table "profiles"
  | _ => false
  end.

Definition fetches_listing (ev : event) : bool :=
  match ev with
  | SelectSingle table _ => String.eqb table "listings"
  | _ => false
  end.

(** Calls that write or delete the video file. *)
Definition touches_file (ev : event) : bool :=
  match ev with
  | RenderMedia _ _ | Unlink _ => true
  | _ => false
  end.

(** How a run of the render pipeline, or the rest of one, can end as far
    as the video file goes; [head] holds what was rendered before.  Either
    it answers 200 and the one file that was rendered is the one file that
    was deleted; or it fails in the deletion itself; or it fails and
    nothing was deleted. *)
Definition settled (w : World) (head : list string) (m : M response) : Prop :=
  (∃ r path, result m = Ok r ∧ status r = 200%Z
             ∧ head ++ rendered (trace m) = [path] ∧ unlinked (trace m) = [path])
  ∨ (∃ e path, result m = Throw e
               ∧ head ++ rendered (trace m) = [path] ∧ unlinked (trace m) = [path]
               ∧ unlink w path = Throw e)
  ∨ (∃ e, result m = Throw e ∧ unlinked (trace m) = []).

(** A [<] that some later [>] closes: what the markup pattern matches. *)
Fixpoint has_tag (s : string) : bool :=
  match s with
  | "" => false
  | String c r => (Str.eqc c "<" && Str.has_char ">" r) || has_tag r
  end.

(** What [validateWebhookPayload] asks of a body. *)
Definition verdict (body : value) : bool :=
  let record := JS.get_opt body "record" in
  JS.is_str (JS.get_opt body "type") "INSERT"
  && JS.is_str (JS.get_opt body "table") "listings"
  && JS.truthy record
  && JS.is_str (JS.get_opt record "status") "active"
  && JS.truthy (JS.get_opt record "id")
  && JS.truthy (JS.get_opt record "title")
  && JS.truthy (JS.get_opt record "user_id").

(** ** More sample worlds *)

Module Sample2.

(** The service is configured and fails. *)
Definition service_fails : World :=
  Sample.world (Sample.env_with "NEXT_PUBLIC_GEMINI_API_KEY" "key")
    (Throw (Error "quota exceeded")) Sample.no_row Sample.seller_row
    (Ok tt) (Ok VNull) (Ok VNull).

Definition eagle : value :=
  obj [("title", VStr "Gold Eagle");
       ("description", VStr "<p>One ounce, <b>brilliant</b> uncirculated.</p>");
       ("specifications",
        obj [("purity", VStr ".999"); ("year", VStr "2024"); ("category", VStr "Gold")])].

End Sample2.


(** * Facts about the string built-ins *)

Module StrFacts.
Import Str.

Lemma len_app (a b : string) : len (a +:+ b) = len a + len b.
Proof. induction a as [|c a IH]; simpl; [done|]. unfold len in *; simpl. by rewrite IH. Qed.

Lemma len_take (n : nat) (s : string) : len (take n s) = n `min` len s.
Proof.
  revert s; induction n as [|n IH]; intros [|c s]; simpl; try done.
  unfold len in *; simpl. by rewrite IH.
Qed.

Lemma ellipsize_short (max : nat) (s : string) :
  len s ≤ max → ellipsize max s = s.
Proof.
  intros H. unfold ellipsize.
  destruct (Nat.ltb_spec max (len s)); [lia|done].
Qed.

Lemma ellipsize_long (max : nat) (s : string) :
  max < len s → ellipsize max s = take (max - 3) s +:+ "...".
Proof.
  intros H. unfold ellipsize.
  destruct (Nat.ltb_spec max (len s)); [done|lia].
Qed.

Lemma len_ellipsize (max : nat) (s : string) :
  3 ≤ max → len (ellipsize max s) ≤ max.
Proof.
  intros H. unfold ellipsize.
  destruct (Nat.ltb_spec max (len s)) as [Hlt|Hle]; [|done].
  rewrite len_app, len_take. change (len "...") with 3. lia.
Qed.

Lemma len_ellipsize_long (max : nat) (s : string) :
  3 ≤ max → max < len s → len (ellipsize max s) = max.
Proof.
  intros H Hlt. rewrite ellipsize_long by done.
  rewrite len_app, len_take. change (len "...") with 3. lia.
Qed.

Lemma ellipsize_nonempty (max : nat) (s : string) :
  0 < len s → 0 < len (ellipsize max s).
Proof.
  intros H. unfold ellipsize.
  destruct (Nat.ltb_spec max (len s)); [|done].
  rewrite len_app. change (len "...") with 3. lia.
Qed.

Lemma eqc_refl (c : ascii) : eqc c c = true.
Proof. apply Ascii.eqb_refl. Qed.

Lemma starts_with_app (p s : string) : starts_with p (p +:+ s) = true.
Proof. induction p as [|c p IH]; simpl; [done|]. by rewrite eqc_refl, IH. Qed.

Lemma includes_here (needle s : string) :
  starts_with needle s = true → includes needle s = true.
Proof. intros H. destruct s; simpl in *; by rewrite H. Qed.

Lemma includes_app_l (needle a s : string) :
  includes needle s = true → includes needle (a +:+ s) = true.
Proof.
  intros H. induction a as [|c a IH]; simpl; [done|].
  rewrite IH. apply orb_true_r.
Qed.

(** A text that embeds [needle] includes it. *)
Lemma includes_infix (needle a b : string) :
  includes needle (a +:+ needle +:+ b) = true.
Proof. apply includes_app_l, includes_here, starts_with_app. Qed.

End StrFacts.

Module JSFacts.
Import JS.

Lemma truthy_or_empty (v : value) : truthy (or_else v (VStr "")) = truthy v.
Proof. unfold or_else. by destruct (truthy v) eqn:E. Qed.

Lemma or_else_truthy (a b : value) : truthy a = true → or_else a b = a.
Proof. unfold or_else. by intros ->. Qed.

Lemma or_else_falsy (a b : value) : truthy a = false → or_else a b = b.
Proof. unfold or_else. by intros ->. Qed.

(** Reading a property of anything but [undefined] and [null] succeeds. *)
Lemma get_truthy (v : value) (k : string) :
  truthy v = true → get v k = Ok (get_opt v k).
Proof. unfold get_opt. by destruct v. Qed.

(** The only error ToString raises. *)
Lemma to_string_throws (v : value) (e : error) :
  to_string v = Throw e → e = no_primitive.
Proof.
  revert v e. fix IH 1. intros [| | | | |l|o] e H; try discriminate.
  - simpl in H. revert l e H. fix IHr 1. intros [|x r] e H; [discriminate|].
    pose proof (IH x) as IHx. pose proof (IHr r) as IHr'. clear IH IHr.
    destruct (match x with VUndefined | VNull => Ok "" | _ => to_string x end)
      as [s|err] eqn:Hx.
    + destruct r as [|x' r']; [discriminate|].
      match type of H with
      | match ?j with _ => _ end = _ => destruct j as [t|err] eqn:Hr
      end; [discriminate|].
      injection H as <-. by apply IHr'.
    + injection H as <-.
      destruct x; try discriminate; by apply IHx.
  - simpl in H. destruct (o !! "toString"); [|discriminate]. by injection H.
Qed.

End JSFacts.

Module DescriptionFacts.
Import Str JS Description StrFacts JSFacts.

(** Whatever is falsy converts to text. *)
Lemma to_string_falsy (v : value) :
  truthy v = false → ∃ s : string, to_string v = Ok s.
Proof. destruct v; try done; eauto. Qed.

(** A category that is there but is not text stops the generator. *)
Lemma non_text_category_throws (listing : value) :
  let category := get_opt (get_opt listing "specifications") "category" in
  truthy category = true → (∀ s : string, category ≠ VStr s) →
  ∃ e : error, generateFallbackDescription listing = Throw e.
Proof.
  intros category Htruthy Hnot.
  assert (∀ expr, ∃ e, lower_of expr category = Throw e) as Hlower.
  { intros expr. destruct category eqn:E; try (eexists; reflexivity).
    by destruct (Hnot s). }
  unfold generateFallbackDescription.
  destruct listing; try (eexists; reflexivity); cbn [destructure_listing mbind outcome_bind];
    fold category; rewrite (or_else_truthy category) by done;
    rewrite !truthy_or_empty;
    match goal with
    | |- context [truthy ?p && truthy ?y] =>
        destruct (truthy p) eqn:Hp, (truthy y) eqn:Hy; cbn [andb];
        rewrite ?(or_else_truthy p), ?(or_else_truthy y) by done
    end;
    repeat match goal with
    | |- context [to_string ?v] =>
        destruct (to_string v); cbn [mbind outcome_bind]; [|eexists; reflexivity]
    end;
    try (destruct (Hlower "category") as [e ->]; eexists; reflexivity).
Qed.

(** C2 (as amended).  For a listing whose category is text or missing and
    whose purity, year and condition can be written as text, the fallback
    description is composed by the first template that applies, in the
    order: purity and year both truthy, purity truthy, year truthy,
    neither.  The composed text is returned as it is when it has at most
    120 characters and cut to its first 117 characters followed by "..."
    otherwise; the result is never empty and never longer than 120, and
    with no specification field populated it is the sentence of the last
    template. *)
Theorem fallback_description_priority (listing : value) (c p y k : string) :
  let specifications := get_opt listing "specifications" in
  let category := get_opt specifications "category" in
  let purity := get_opt specifications "purity" in
  let year := get_opt specifications "year" in
  let condition := get_opt specifications "condition" in
  let ending (otherwise : string) :=
    if truthy condition then k +:+ " condition." else otherwise in
  let composed :=
    if truthy purity && truthy year then
      p +:+ " purity " +:+ toLowerCase c +:+ " from " +:+ y +:+ ". "
        +:+ ending "Exceptional quality."
    else if truthy purity then
      "Premium " +:+ p +:+ " purity " +:+ toLowerCase c +:+ ". "
        +:+ ending "Investment grade."
    else if truthy year then
      "Collectible " +:+ toLowerCase c +:+ " from " +:+ y +:+ ". "
        +:+ ending "Excellent specimen."
    else
      "Beautiful " +:+ toLowerCase c +:+ " piece. " +:+ ending "Quality guaranteed." in
  listing ≠ VUndefined → listing ≠ VNull →
  (category = VStr c ∧ c ≠ "") ∨ (truthy category = false ∧ c = "precious metal") →
  to_string purity = Ok p →
  to_string year = Ok y →
  to_string condition = Ok k →
  ∃ text : string,
    generateFallbackDescription listing = Ok text
    ∧ (len composed ≤ 120 → text = composed)
    ∧ (120 < len composed → text = take 117 composed +:+ "..." ∧ len text = 120)
    ∧ 0 < len text ≤ 120
    ∧ (truthy purity = false → truthy year = false → truthy condition = false →
       truthy category = false →
       text = "Beautiful precious metal piece. Quality guaranteed.").
Proof.
  intros specifications category purity year condition ending composed
         Hundefined Hnull Hcategory Hp Hy Hk.
  assert (or_else category (VStr "precious metal") = VStr c) as Hc.
  { destruct Hcategory as [[Hc Hne]|[Hc ->]].
    - rewrite or_else_truthy; [done|]. rewrite Hc. by destruct c.
    - by apply or_else_falsy. }
  assert (generateFallbackDescription listing = Ok (ellipsize 120 composed)) as Hrun.
  { unfold generateFallbackDescription.
    assert (destructure_listing listing = Ok specifications) as -> by by destruct listing.
    cbn [mbind outcome_bind].
    fold category purity year condition. rewrite Hc, !truthy_or_empty.
    subst composed ending. unfold condition_or. rewrite truthy_or_empty.
    destruct (truthy purity) eqn:Htp, (truthy year) eqn:Hty, (truthy condition) eqn:Htc;
      cbn [andb];
      rewrite ?(or_else_truthy purity), ?(or_else_truthy year),
              ?(or_else_truthy condition) by done;
      rewrite ?Hp, ?Hy, ?Hk; reflexivity. }
  assert (0 < len composed) as Hpos.
  { subst composed ending.
    destruct (truthy purity), (truthy year), (truthy condition); cbn [andb];
      rewrite !len_app; simpl; lia. }
  exists (ellipsize 120 composed).
  split; [exact Hrun|].
  split; [apply ellipsize_short|].
  split; [intros Hlong; split; [by apply ellipsize_long | by apply len_ellipsize_long; lia]|].
  split; [split; [by apply ellipsize_nonempty | apply len_ellipsize; lia]|].
  intros Htp Hty Htc Htcat. subst composed ending. cbv beta. rewrite Htp, Hty, Htc.
  destruct Hcategory as [[Hc' Hne]|[_ ->]]; [|reflexivity].
  rewrite Hc' in Htcat. by destruct c.
Qed.

End DescriptionFacts.


(** * Facts about computations *)

Module MFacts.

Lemma lift_ok_bind {A B : Type} (a : A) (f : A → M B) :
  (lift (Ok a) ≫= f) = f a.
Proof. unfold lift, mbind, M_bind. by destruct (f a). Qed.

Lemma lift_throw_bind {A B : Type} (e : error) (f : A → M B) :
  (lift (Throw e) ≫= f) = lift (Throw e).
Proof. reflexivity. Qed.

Lemma call_ok_bind {A B : Type} (ev : event) (a : A) (f : A → M B) :
  (call ev (Ok a) ≫= f) = (ev :: trace (f a), result (f a)).
Proof. unfold call, mbind, M_bind, trace, result. by destruct (f a). Qed.

Lemma call_throw_bind {A B : Type} (ev : event) (e : error) (f : A → M B) :
  (call ev (Throw e : outcome A) ≫= f) = ([ev], Throw e).
Proof. reflexivity. Qed.

Lemma console_bind {B : Type} (level : string) (f : unit → M B) :
  (console level ≫= f) = (Console level :: trace (f tt), result (f tt)).
Proof. unfold console, mbind, M_bind, trace, result. by destruct (f tt). Qed.

Lemma try_catch_ok {A : Type} (t : list event) (a : A) (h : error → M A) :
  try_catch (t, Ok a) h = (t, Ok a).
Proof. reflexivity. Qed.

Lemma try_catch_throw {A : Type} (t : list event) (e : error) (h : error → M A) :
  try_catch (t, Throw e) h = (t ++ trace (h e), result (h e)).
Proof. unfold try_catch, trace, result. by destruct (h e). Qed.

(** A bind that ends well went through both of its halves. *)
Lemma bind_ok_inv {A B : Type} (m : M A) (f : A → M B) (b : B) :
  result (m ≫= f) = Ok b →
  ∃ a, result m = Ok a ∧ result (f a) = Ok b.
Proof.
  destruct m as [t [a|e]]; unfold mbind, M_bind, result; simpl.
  - destruct (f a) as [t' r] eqn:E. simpl. intros ->. exists a. by rewrite E.
  - discriminate.
Qed.

Lemma trace_bind {A B : Type} (m : M A) (f : A → M B) :
  trace (m ≫= f) =
  trace m ++ match result m with
             | Ok a => trace (f a)
             | Throw _ => []
             end.
Proof.
  destruct m as [t [a|e]]; unfold mbind, M_bind, trace, result; simpl.
  - by destruct (f a).
  - by rewrite app_nil_r.
Qed.

End MFacts.

Module QuoteFacts.
Import Str StrFacts.

Lemma drop_last_quote_snoc (s : string) (q : ascii) :
  is_quote q = true → drop_last_quote (s +:+ String q "") = s.
Proof.
  intros Hq. induction s as [|c s IH]; simpl; [by rewrite Hq|].
  rewrite IH. by destruct s.
Qed.

Lemma drop_last_quote_keep (s : string) :
  ends_with_quote s = false → drop_last_quote s = s.
Proof.
  induction s as [|c s IH]; simpl; [done|].
  destruct s as [|d s]; [by intros ->|].
  intros H. by rewrite IH.
Qed.

Lemma len_drop_last_quote (s : string) : len (drop_last_quote s) ≤ len s.
Proof.
  induction s as [|c s IH]; simpl; [done|].
  destruct s as [|d s]; [destruct (is_quote c); simpl; unfold len; simpl; lia|].
  unfold len in *. simpl in *. lia.
Qed.

Lemma len_strip_quotes (s : string) : len (strip_quotes s) ≤ len s.
Proof.
  destruct s as [|c s]; [done|]. unfold strip_quotes.
  destruct (is_quote c).
  - pose proof (len_drop_last_quote s). unfold len in *. simpl. lia.
  - apply len_drop_last_quote.
Qed.

End QuoteFacts.

Module DetailedFacts.
Import Str JS Description StrFacts JSFacts MFacts QuoteFacts.

(** C5 (as amended).  When the service is configured and answers [text] to
    the prompt of the listing, the punchy description is that answer,
    trimmed, without the quote character at its start (if there is one) and
    without the quote character at its end (if there is one), each removed
    whether or not the other is there; it is returned whole when it has at
    most 80 characters and cut to its first 77 characters followed by "..."
    otherwise, so it never exceeds 80 characters. *)
Theorem detailed_description_from_service
    (w : World) (listing : value) (prompt text : string) :
  truthy (env w "NEXT_PUBLIC_GEMINI_API_KEY") = true →
  detailed_prompt listing = Ok prompt →
  generate_content w prompt = Ok text →
  let answer := trim text in
  ∃ stripped out : string,
    generateDetailedDescription w listing = ([GenerateContent prompt], Ok out)
    ∧ stripped = strip_quotes answer
    ∧ (∀ q1 q2 core, answer = String q1 (core +:+ String q2 "") →
         is_quote q1 = true → is_quote q2 = true → stripped = core)
    ∧ (∀ q rest, answer = String q rest →
         is_quote q = true → ends_with_quote rest = false → stripped = rest)
    ∧ (∀ q core, answer = core +:+ String q "" →
         is_quote q = true → starts_with_quote core = false → stripped = core)
    ∧ (starts_with_quote answer = false → ends_with_quote answer = false →
         stripped = answer)
    ∧ (len stripped ≤ 80 → out = stripped)
    ∧ (80 < len stripped → out = take 77 stripped +:+ "...")
    ∧ len out ≤ 80.
Proof.
  intros Hkey Hprompt Htext answer.
  exists (strip_quotes answer), (ellipsize 80 (strip_quotes answer)).
  split.
  { unfold generateDetailedDescription. rewrite Hkey, Hprompt. simpl.
    rewrite Htext. reflexivity. }
  split; [done|].
  split.
  { intros q1 q2 core -> H1 H2. simpl. rewrite H1. by apply drop_last_quote_snoc. }
  split.
  { intros q rest -> Hq Hrest. simpl. rewrite Hq. by apply drop_last_quote_keep. }
  split.
  { intros q core Heq Hq Hcore. rewrite Heq.
    destruct core as [|c core]; [simpl; by rewrite Hq|].
    simpl in Hcore.
    change (String c core +:+ String q "") with (String c (core +:+ String q "")).
    unfold strip_quotes. rewrite Hcore. by apply (drop_last_quote_snoc (String c core)). }
  split.
  { intros Hs He. destruct answer as [|c s]; [done|]. simpl in Hs.
    unfold strip_quotes. rewrite Hs. by apply drop_last_quote_keep. }
  split; [apply ellipsize_short|].
  split; [apply ellipsize_long|].
  apply len_ellipsize; lia.
Qed.

End DetailedFacts.

(** * The webhook entry point *)
(** * The webhook entry point *)

Module WebhookFacts.
Import Str JS Webhook StrFacts JSFacts MFacts.

Lemma get_obj (o : gmap string value) (k : string) :
  get (VObj o) k = Ok (default VUndefined (o !! k)).
Proof. reflexivity. Qed.

Lemma not_active_message (text : string) :
  includes "not active"
    ("Listing status '" +:+ text +:+ "' not active - skipping video generation") = true.
Proof. by do 2 apply includes_app_l. Qed.

(** What the validator does with an insert on the listings table whose
    record is not active. *)
Lemma validate_inactive (o : gmap string value) (record : value) :
  o !! "type" = Some (VStr "INSERT") →
  o !! "table" = Some (VStr "listings") →
  o !! "record" = Some record →
  truthy record = true →
  is_str (get_opt record "status") "active" = false →
  validateWebhookPayload (VObj o) =
    ([Console "error"],
     match to_string (get_opt record "status") with
     | Ok text =>
         Throw (Error ("Listing status '" +:+ text
                       +:+ "' not active - skipping video generation"))
     | Throw e => Throw e
     end).
Proof.
  intros Htype Htable Hrecord Htruthy Hstatus.
  unfold validateWebhookPayload.
  rewrite !get_obj, Htype, Htable, Hrecord. simpl.
  rewrite Htruthy. simpl.
  rewrite !(get_truthy record) by done. simpl.
  rewrite Hstatus. simpl.
  by destruct (to_string (get_opt record "status")).
Qed.

(** C1 (as amended).  An [INSERT] event on the [listings] table whose
    record has a status other than "active" is answered 200 with
    [success: true], the message "Webhook skipped" and the reason
    "Listing status '<status>' not active - skipping video generation",
    which contains "not active", whenever the status can be written as
    text; a status that cannot (an object that shadows [toString]) is
    answered 500 with the conversion error.  Either way only console output
    happens, no external call. *)
Theorem inactive_listing_is_skipped
    (w : World) (o : gmap string value) (record : value) :
  o !! "type" = Some (VStr "INSERT") →
  o !! "table" = Some (VStr "listings") →
  o !! "record" = Some record →
  truthy record = true →
  is_str (get_opt record "status") "active" = false →
  (∀ text : string,
     to_string (get_opt record "status") = Ok text →
     let reason :=
       "Listing status '" +:+ text +:+ "' not active - skipping video generation" in
     POST w (Ok (VObj o)) =
       ([Console "log"; Console "error"; Console "log"],
        Ok (Response 200 (obj [("success", VBool true);
                               ("message", VStr "Webhook skipped");
                               ("reason", VStr reason)])))
     ∧ includes "not active" reason = true)
  ∧ (∀ e : error,
       to_string (get_opt record "status") = Throw e →
       POST w (Ok (VObj o)) =
         ([Console "log"; Console "error"; Console "error"],
          Ok (Response 500
                (obj [("success", VBool false);
                      ("error", VStr "Cannot convert object to primitive value")]))))
  ∧ Forall (λ ev, is_external ev = false) (trace (POST w (Ok (VObj o)))).
Proof.
  intros Htype Htable Hrecord Htruthy Hstatus.
  assert (∀ text : string,
            to_string (get_opt record "status") = Ok text →
            POST w (Ok (VObj o)) =
              ([Console "log"; Console "error"; Console "log"],
               Ok (Response 200
                     (obj [("success", VBool true);
                           ("message", VStr "Webhook skipped");
                           ("reason",
                            VStr ("Listing status '" +:+ text
                                  +:+ "' not active - skipping video generation"))]))))
    as Hskip.
  { intros text Htext. unfold POST, process. rewrite lift_ok_bind, console_bind.
    rewrite (validate_inactive o record), Htext by done.
    cbn [mbind M_bind trace result fst snd try_catch app].
    unfold on_error. cbn [message].
    rewrite not_active_message. reflexivity. }
  assert (∀ e : error,
            to_string (get_opt record "status") = Throw e →
            POST w (Ok (VObj o)) =
              ([Console "log"; Console "error"; Console "error"],
               Ok (Response 500
                     (obj [("success", VBool false);
                           ("error", VStr "Cannot convert object to primitive value")]))))
    as Hfail.
  { intros e He. rewrite (to_string_throws _ _ He) in He.
    unfold POST, process. rewrite lift_ok_bind, console_bind.
    rewrite (validate_inactive o record), He by done. reflexivity. }
  split; [|split].
  - intros text Htext reason. split; [by apply Hskip | apply not_active_message].
  - exact Hfail.
  - destruct (to_string (get_opt record "status")) as [text|e] eqn:Hs.
    + rewrite (Hskip text) by done. repeat constructor.
    + rewrite (Hfail e) by done. repeat constructor.
Qed.

Lemma on_error_status (e : error) :
  includes "not active" (message e) = false →
  includes "only INSERT events" (message e) = false →
  includes "only listings table" (message e) = false →
  on_error e =
    ([Console "error"],
     Ok (Response (if includes "Missing" (message e) then 400 else 500)
                  (obj [("success", VBool false); ("error", VStr (message e))]))).
Proof. intros H1 H2 H3. unfold on_error. by rewrite H1, H2, H3. Qed.

(** C9.  When processing throws an error whose message holds none of the
    three skip phrases, the answer is 400 exactly when the message
    contains "Missing" and 500 otherwise, whatever raised the error. *)
Theorem unexpected_error_status
    (w : World) (req_json : outcome value) (t : list event) (e : error) :
  process w req_json = (t, Throw e) →
  includes "not active" (message e) = false →
  includes "only INSERT events" (message e) = false →
  includes "only listings table" (message e) = false →
  ∃ r : response,
    POST w req_json = (t ++ [Console "error"], Ok r)
    ∧ field r "success" = Some (VBool false)
    ∧ field r "error" = Some (VStr (message e))
    ∧ (status r = 400%Z ↔ includes "Missing" (message e) = true)
    ∧ (status r = 500%Z ↔ includes "Missing" (message e) = false).
Proof.
  intros Hthrow H1 H2 H3.
  eexists. split.
  { unfold POST. rewrite Hthrow, try_catch_throw, on_error_status by done.
    reflexivity. }
  cbn [status]. split; [reflexivity|]. split; [reflexivity|].
  destruct (includes "Missing" (message e)); split; split; done.
Qed.

End WebhookFacts.

Module ListingDescriptionFacts.
Import Str JS Webhook StrFacts JSFacts MFacts.

(** The ways the builder can end. *)
Lemma generateListingDescription_cases (listing : value) :
  generateListingDescription listing =
    match get listing "description" with
    | Throw _ => ([Console "error"], Ok "Premium precious metal item available now.")
    | Ok d =>
        match (if truthy d then exceeds_10 (get_opt d "length") else Ok false) with
        | Throw _ => ([Console "error"], Ok "Premium precious metal item available now.")
        | Ok true =>
            match d with
            | VStr s => ([], Ok (ellipsize 150 (strip_tags s)))
            | _ => ([Console "error"], Ok "Premium precious metal item available now.")
            end
        | Ok false =>
            match to_string (or_else (get_opt listing "tier1_category")
                                     (VStr "precious metal")) with
            | Ok category =>
                ([], Ok ("Discover this exquisite " +:+ category
                         +:+ " item. Quality guaranteed."))
            | Throw _ => ([Console "error"], Ok "Premium precious metal item available now.")
            end
        end
    end.
Proof.
  unfold generateListingDescription.
  destruct (get listing "description") as [d|e] eqn:Hd; [|reflexivity].
  assert (get listing "tier1_category" = Ok (get_opt listing "tier1_category")) as Ht.
  { unfold get_opt. destruct listing; try done. }
  cbn [mbind outcome_bind lift try_catch].
  destruct (truthy d) eqn:Htruthy.
  - rewrite (get_truthy d) by done. cbn [mbind outcome_bind].
    destruct (exceeds_10 (get_opt d "length")) as [[|]|e]; cbn [mbind outcome_bind].
    + by destruct d.
    + rewrite Ht. cbn [mbind outcome_bind].
      by destruct (to_string _).
    + reflexivity.
  - cbn [mret outcome_ret mbind outcome_bind]. rewrite Ht. cbn [mbind outcome_bind].
    by destruct (to_string _).
Qed.

Lemma listing_description_cases_total (listing : value) :
  ∃ t text, generateListingDescription listing = (t, Ok text).
Proof.
  rewrite generateListingDescription_cases.
  destruct (get listing "description") as [d|e]; [|by eauto].
  destruct (if truthy d then _ else _) as [[|]|e]; [| |by eauto].
  - destruct d; by eauto.
  - destruct (to_string _); by eauto.
Qed.

Lemma exceeds_10_length (s : string) :
  exceeds_10 (get_opt (VStr s) "length") = Ok (Nat.ltb 10 (len s)).
Proof.
  unfold get_opt. simpl. f_equal.
  destruct (Nat.ltb_spec 10 (len s)); [apply Z.ltb_lt | apply Z.ltb_ge]; lia.
Qed.

(** C10 (as amended).  The webhook's description builder never throws and
    makes no external call, so it never reaches the text-generation
    service.  A description that is a string of more than 10 characters
    gives its text without markup, whole up to 150 characters and cut to
    147 characters plus "..." beyond, which is empty when the description
    is markup only.  A description that is missing, empty or a string of at
    most 10 characters gives "Discover this exquisite <tier1_category, or
    precious metal> item. Quality guaranteed." when the category can be
    written as text, and "Premium precious metal item available now."
    after an error line on the console when it cannot.  Every result is one
    of these three, and only the first can be empty. *)
Theorem listing_description_builder (listing : value) :
  ∃ text : string,
    result (generateListingDescription listing) = Ok text
    ∧ Forall (λ ev, is_external ev = false ∧ is_generate ev = false)
             (trace (generateListingDescription listing))
    ∧ (∀ s, get_opt listing "description" = VStr s → 10 < len s →
         trace (generateListingDescription listing) = []
         ∧ len text ≤ 150
         ∧ (len (strip_tags s) ≤ 150 → text = strip_tags s)
         ∧ (150 < len (strip_tags s) → text = take 147 (strip_tags s) +:+ "..."))
    ∧ (∀ d, get listing "description" = Ok d →
         truthy d = false ∨ (∃ s, d = VStr s ∧ len s ≤ 10) →
         match to_string (or_else (get_opt listing "tier1_category")
                                  (VStr "precious metal")) with
         | Ok category =>
             generateListingDescription listing =
               ([], Ok ("Discover this exquisite " +:+ category
                        +:+ " item. Quality guaranteed."))
         | Throw _ =>
             generateListingDescription listing =
               ([Console "error"], Ok "Premium precious metal item available now.")
         end)
    ∧ (text = "Premium precious metal item available now."
       ∨ (∃ category,
            to_string (or_else (get_opt listing "tier1_category")
                               (VStr "precious metal")) = Ok category
            ∧ text = "Discover this exquisite " +:+ category
                     +:+ " item. Quality guaranteed.")
       ∨ (∃ s, get_opt listing "description" = VStr s ∧ 10 < len s
               ∧ (len text = 0 ↔ strip_tags s = "")))
    ∧ (len text = 0 →
         ∃ s, get_opt listing "description" = VStr s ∧ 10 < len s
              ∧ strip_tags s = "").
Proof.
  rewrite generateListingDescription_cases.
  destruct (get listing "description") as [d|e] eqn:Hd.
  - assert (get_opt listing "description" = d) as Hopt
      by (unfold get_opt; by rewrite Hd).
    rewrite Hopt.
    destruct (if truthy d then exceeds_10 (get_opt d "length") else Ok false)
      as [[|]|e] eqn:Hlong.
    + (* the description is long *)
      destruct (truthy d) eqn:Htruthy; [|discriminate].
      destruct d as [| |b|n|s|l|o'];
        try discriminate;
        try (eexists; split; [reflexivity|]; split; [by repeat constructor|];
             split; [by intros s' [=]|];
             split; [by intros d [= <-] [Hf|(s' & [=] & _)]|];
             split; [by left|]; by intros Hlen).
      rewrite exceeds_10_length in Hlong. injection Hlong as Hlong.
      apply Nat.ltb_lt in Hlong.
      assert (len (ellipsize 150 (strip_tags s)) = 0 ↔ strip_tags s = "") as Hempty.
      { split; [|by intros ->].
        destruct (strip_tags s) as [|c r] eqn:E; [done|].
        pose proof (ellipsize_nonempty 150 (String c r)) as Hne.
        intros H0. exfalso. unfold len in *. simpl in *. lia. }
      exists (ellipsize 150 (strip_tags s)).
      split; [done|]. split; [constructor|].
      split.
      { intros s' [= <-] _. split; [done|].
        split; [apply len_ellipsize; lia|].
        split; [apply ellipsize_short | apply ellipsize_long]. }
      split.
      { intros d [= <-] [Hf|(s' & [= <-] & Hle)]; [congruence|lia]. }
      split; [right; right; by exists s|].
      intros H0. exists s. split; [done|]. split; [done|]. by apply Hempty.
    + (* it is not *)
      assert (∀ s, d = VStr s → 10 < len s → False) as Hshort.
      { intros s -> Hlen. rewrite exceeds_10_length in Hlong. cbn [truthy] in Hlong.
        destruct (Nat.eqb (len s) 0) eqn:E; cbn [negb] in Hlong.
        - apply Nat.eqb_eq in E. lia.
        - injection Hlong as Hlong. apply Nat.ltb_ge in Hlong. lia. }
      destruct (to_string (or_else (get_opt listing "tier1_category")
                                   (VStr "precious metal"))) as [category|e] eqn:Hc.
      * eexists. split; [reflexivity|]. split; [constructor|].
        split; [intros s Hs Hlen; by destruct (Hshort s Hs Hlen)|].
        split; [done|].
        split; [right; left; by exists category|].
        rewrite len_app. simpl. lia.
      * eexists. split; [reflexivity|]. split; [by repeat constructor|].
        split; [intros s Hs Hlen; by destruct (Hshort s Hs Hlen)|].
        split; [done|].
        split; [by left|]. by intros Hlen.
    + (* the length cannot be compared *)
      destruct (truthy d) eqn:Htruthy; [|discriminate].
      eexists. split; [reflexivity|]. split; [by repeat constructor|].
      split.
      { intros s -> _. by rewrite exceeds_10_length in Hlong. }
      split.
      { intros d' [= <-] [Hf|(s & -> & _)]; [congruence|].
        by rewrite exceeds_10_length in Hlong. }
      split; [by left|]. by intros Hlen.
  - assert (get_opt listing "description" = VUndefined) as Hopt
      by (unfold get_opt; by rewrite Hd).
    rewrite Hopt. eexists. split; [reflexivity|]. split; [by repeat constructor|].
    split; [by intros s [=]|].
    split; [by intros d [=]|].
    split; [by left|]. by intros Hlen.
Qed.

End ListingDescriptionFacts.

(** * The video input bag *)

Module BagFacts.
Import Str JS StrFacts JSFacts MFacts ListingDescriptionFacts.

Lemma specifications_of_truthy (listing : value) :
  truthy listing = true →
  specifications_of listing =
    match weight_label (get_opt listing "weight") with
    | Ok label =>
        Ok (obj [("category", or_else (get_opt listing "tier1_category")
                                      (get_opt listing "tier2_category"));
                 ("condition", get_opt listing "condition");
                 ("weight", label);
                 ("purity", get_opt listing "purity");
                 ("year", get_opt listing "year")])
    | Throw e => Throw e
    end.
Proof.
  intros H. unfold specifications_of.
  rewrite !(get_truthy listing) by done. cbn [mbind outcome_bind].
  by destruct (weight_label _).
Qed.

(** The webhook's job description, when nothing on the way fails. *)
Lemma generateVideoReel_ok (w : World) (listing seller specifications : value)
    (title id base : string) :
  truthy listing = true → truthy seller = true →
  to_string (get_opt listing "title") = Ok title →
  to_string (get_opt listing "id") = Ok id →
  to_string (env w "NEXT_PUBLIC_APP_URL") = Ok base →
  specifications_of listing = Ok specifications →
  get_cookies w = Ok tt → create_client w = Ok tt →
  ∃ (t : list event) (text : string),
    result (Webhook.generateListingDescription listing) = Ok text
    ∧ Webhook.generateVideoReel w listing seller =
        (t, Ok (obj [("success", VBool true);
                     ("videoPath",
                      VStr ("video-reels/" +:+ "listing-" +:+ id +:+ "-"
                            +:+ numeral (int (now_file w)) +:+ ".mp4"));
                     ("videoData",
                      obj [("listingTitle",
                            or_else (get_opt listing "title") (VStr "New Listing"));
                           ("listingDescription", VStr text);
                           ("images", or_else (get_opt listing "images") (VArr []));
                           ("specifications", specifications);
                           ("sellerName",
                            or_else (get_opt seller "full_name")
                                    (get_opt seller "username"));
                           ("logoUrl",
                            if truthy (env w "NEXT_PUBLIC_APP_URL")
                            then VStr (base +:+ "/peermetals.png")
                            else VStr "https://peermetals.com/peermetals.png")]);
                     ("message", VStr "Video generation queued successfully")])).
Proof.
  intros Hl Hs Htitle Hid Hbase Hspec Hcookies Hclient.
  destruct (listing_description_cases_total listing) as (t & text & Hd).
  eexists _, text.
  split; [by rewrite Hd|].
  assert (video_file_name w listing =
          Ok ("listing-" +:+ id +:+ "-" +:+ numeral (int (now_file w)) +:+ ".mp4"))
    as Hname.
  { unfold video_file_name. rewrite (get_truthy listing) by done.
    cbn [mbind outcome_bind]. by rewrite Hid. }
  assert (Webhook.logoUrl w =
          Ok (if truthy (env w "NEXT_PUBLIC_APP_URL")
              then VStr (base +:+ "/peermetals.png")
              else VStr "https://peermetals.com/peermetals.png")) as Hlogo.
  { unfold Webhook.logoUrl. rewrite Hbase.
    by destruct (truthy (env w "NEXT_PUBLIC_APP_URL")). }
  unfold Webhook.generateVideoReel.
  rewrite Hspec, Hname, Hlogo.
  rewrite !(get_truthy listing), !(get_truthy seller) by done.
  rewrite lift_ok_bind, Htitle, lift_ok_bind, console_bind, Hd.
  cbn -[obj]. rewrite Hcookies, Hclient.
  cbn -[obj]. reflexivity.
Qed.

(** When the specifications cannot be built, the webhook has no job. *)
Lemma generateVideoReel_null (w : World) (listing seller : value) (e : error) :
  truthy listing = true →
  specifications_of listing = Throw e →
  result (Webhook.generateVideoReel w listing seller) = Ok VNull.
Proof.
  intros Hl Hspec.
  destruct (listing_description_cases_total listing) as (t & text & Hd).
  unfold Webhook.generateVideoReel.
  rewrite Hspec, !(get_truthy listing) by done.
  rewrite lift_ok_bind.
  destruct (to_string (get_opt listing "title")); [|reflexivity].
  rewrite lift_ok_bind, console_bind, Hd. reflexivity.
Qed.

(** The render endpoint's bag, once the description is there. *)
Lemma prepare_props_ok (w : World) (listing seller specifications : value)
    (t : list event) (text : string) :
  truthy listing = true → truthy seller = true →
  specifications_of listing = Ok specifications →
  ∃ input : value,
    Render.description_input listing = Ok input
    ∧ (Description.generateDetailedDescription w input = (t, Ok text) →
       Render.prepare_props w listing seller =
         (Console "log" :: t,
          Ok (obj [("listingTitle", get_opt listing "title");
                   ("listingDescription", VStr text);
                   ("images", or_else (get_opt listing "images") (VArr []));
                   ("specifications", specifications);
                   ("sellerName",
                    or_else (get_opt seller "full_name") (get_opt seller "username"));
                   ("logoUrl", VStr "https://peermetals.com/peermetals.png")]))).
Proof.
  intros Hl Hs Hspec. eexists.
  split; [unfold Render.description_input;
          rewrite !(get_truthy listing) by done; reflexivity|].
  intros Hd. unfold Render.prepare_props, Render.description_input.
  rewrite Hspec.
  rewrite !(get_truthy listing), !(get_truthy seller) by done.
  rewrite console_bind. cbn -[obj Description.generateDetailedDescription].
  rewrite Hd. cbn -[obj]. by rewrite app_nil_r.
Qed.

(** Whatever [prepare_props] returns carries the listing's
    specifications and the fixed logo address. *)
Lemma prepare_props_inv (w : World) (listing seller bag : value) :
  result (Render.prepare_props w listing seller) = Ok bag →
  ∃ specifications,
    specifications_of listing = Ok specifications
    ∧ own bag "specifications" = Some specifications
    ∧ own bag "logoUrl" = Some (VStr "https://peermetals.com/peermetals.png").
Proof.
  unfold Render.prepare_props. intros H.
  apply bind_ok_inv in H as (_ & _ & H).
  apply bind_ok_inv in H as (input & _ & H).
  apply bind_ok_inv in H as (text & _ & H).
  apply bind_ok_inv in H as (title & _ & H).
  apply bind_ok_inv in H as (images & _ & H).
  apply bind_ok_inv in H as (specifications & Hspec & H).
  apply bind_ok_inv in H as (full_name & _ & H).
  apply bind_ok_inv in H as (username & _ & H).
  injection H as <-. exists specifications. by split.
Qed.

(** Without specifications the render endpoint has no bag. *)
Lemma prepare_props_throws (w : World) (listing seller : value) (e : error) :
  truthy listing = true →
  specifications_of listing = Throw e →
  ∃ e' : error, result (Render.prepare_props w listing seller) = Throw e'.
Proof.
  intros Hl Hspec.
  destruct (result (Render.prepare_props w listing seller)) as [bag|e'] eqn:H;
    [|by eauto].
  apply prepare_props_inv in H as (specifications & H & _). congruence.
Qed.

End BagFacts.
(** * The render endpoint *)

Module RenderFacts.
Import Str JS Render StrFacts JSFacts MFacts BagFacts.

(** Case analysis on the next answer of the world. *)
Ltac next_answer :=
  cbn -[obj totalTime] in *;
  match goal with
  | |- context [match ?x with _ => _ end] =>
      lazymatch type of x with
      | outcome _ => destruct x eqn:?
      | bool => destruct x eqn:?
      end
  end.

(** How the publish step can end, and what it unlinked on the way. *)
Lemma publish_cases (w : World) (listing : value) (name path : string) :
  let m := publish w listing name path in
  (∃ url id,
     result m = Ok (Response 200
                      (obj [("success", VBool true);
                            ("videoUrl", url);
                            ("listingId", id);
                            ("renderTime", VStr (totalTime w));
                            ("message", VStr "Video rendered and uploaded successfully")]))
     ∧ unlinked (trace m) = [path])
  ∨ (∃ e, result m = Throw e ∧ unlinked (trace m) = [path]
          ∧ unlink w path = Throw e)
  ∨ (∃ e, result m = Throw e ∧ unlinked (trace m) = []).
Proof.
  unfold publish. repeat next_answer;
    try (by left; eexists _, _);
    try (by right; left; eexists);
    try (by right; right; eexists).
Qed.

(** A failed upload ends the publish step before the cleanup. *)
Lemma publish_upload_error (w : World) (listing : value) (name path buffer : string)
    (uploadError : value) (reason : string) :
  read_file w path = Ok buffer →
  upload w ("video-reels/" +:+ name) buffer = Ok uploadError →
  truthy uploadError = true →
  to_string (get_opt uploadError "message") = Ok reason →
  let m := publish w listing name path in
  result m = Throw (Error ("Upload failed: " +:+ reason))
  ∧ unlinked (trace m) = [].
Proof.
  intros Hread Hupload Herr Hreason. unfold publish.
  cbn -[obj totalTime]. rewrite Hread, Hupload.
  cbn -[obj totalTime]. rewrite Herr, (get_truthy uploadError) by done.
  cbn -[obj totalTime]. rewrite Hreason. by cbn.
Qed.

(** A failed record update is logged, and the cleanup still runs. *)
Lemma publish_update_error (w : World) (listing : value) (name path buffer : string)
    (uploadError id updateError : value) (url : string) :
  read_file w path = Ok buffer →
  upload w ("video-reels/" +:+ name) buffer = Ok uploadError →
  truthy uploadError = false →
  to_string (public_url w ("video-reels/" +:+ name)) = Ok url →
  get listing "id" = Ok id →
  update_row w "listings" id
    (obj [("video_url", public_url w ("video-reels/" +:+ name))]) = Ok updateError →
  unlink w path = Ok tt →
  let m := publish w listing name path in
  result m = Ok (Response 200
                   (obj [("success", VBool true);
                         ("videoUrl", public_url w ("video-reels/" +:+ name));
                         ("listingId", id);
                         ("renderTime", VStr (totalTime w));
                         ("message", VStr "Video rendered and uploaded successfully")]))
  ∧ unlinked (trace m) = [path].
Proof.
  intros Hread Hupload Herr Hurl Hid Hupdate Hunlink. unfold publish.
  cbn -[obj totalTime]. rewrite Hread, Hupload.
  cbn -[obj totalTime]. rewrite Herr.
  cbn -[obj totalTime]. rewrite Hurl, Hid.
  cbn -[obj totalTime]. rewrite Hupdate.
  destruct (truthy updateError); cbn -[obj totalTime]; by rewrite Hunlink.
Qed.

Lemma publish_ok_inv (w : World) (listing : value) (name path : string) (r : response) :
  result (publish w listing name path) = Ok r →
  status r = 200%Z
  ∧ field r "success" = Some (VBool true)
  ∧ field r "renderTime" = Some (VStr (totalTime w)).
Proof.
  intros H.
  destruct (publish_cases w listing name path)
    as [(url & id & Hr & _)|[(e & Hr & _)|(e & Hr & _)]];
    rewrite Hr in H; [|done..].
  by injection H as <-.
Qed.

Lemma pipeline_ok_inv (w : World) (listing : value) (r : response) :
  result (pipeline w listing) = Ok r →
  status r = 200%Z
  ∧ field r "success" = Some (VBool true)
  ∧ field r "renderTime" = Some (VStr (totalTime w)).
Proof.
  unfold pipeline. intros H.
  repeat match type of H with
         | result (_ ≫= _) = _ => apply bind_ok_inv in H as (? & _ & H)
         end.
  by apply publish_ok_inv in H.
Qed.

(** A body without [listingId] and [listingData] is rejected at once. *)
Lemma attempt_rejects (w : World) (req : request) :
  missing_both (req_body req) = true →
  attempt w req =
    ([], Ok (Response 400
               (obj [("error",
                      VStr "Missing required parameter: listingId or listingData")]))).
Proof.
  intros Hmissing. unfold attempt.
  assert (destructure_body (req_body req) =
          Ok (get_opt (req_body req) "listingId", get_opt (req_body req) "listingData"))
    as -> by by destruct (req_body req).
  assert (negb (truthy (get_opt (req_body req) "listingId"))
          && negb (truthy (get_opt (req_body req) "listingData")) = true) as Hboth
    by by destruct (req_body req).
  by rewrite lift_ok_bind, Hboth.
Qed.

(** The [try] block returns only the 400 answer or the success answer. *)
Lemma attempt_ok_inv (w : World) (req : request) (r : response) :
  result (attempt w req) = Ok r →
  (missing_both (req_body req) = true ∧ status r = 400%Z)
  ∨ (status r = 200%Z
     ∧ field r "success" = Some (VBool true)
     ∧ field r "renderTime" = Some (VStr (totalTime w))).
Proof.
  unfold attempt. intros H.
  destruct (destructure_body (req_body req)) as [[listingId listingData]|e] eqn:Hb;
    [|discriminate].
  rewrite lift_ok_bind in H.
  destruct (truthy listingId) eqn:Hid, (truthy listingData) eqn:Hdata;
    cbn [negb andb] in H;
    try (right; apply bind_ok_inv in H as (listing & _ & H);
         by apply pipeline_ok_inv in H).
  left. injection H as <-. split; [|done].
  unfold missing_both. destruct (req_body req); try discriminate;
    injection Hb as <- <-; by rewrite Hid, Hdata.
Qed.

(** C8 (as amended).  A request that is not a POST is answered 405 with the
    message "Method not allowed" and nothing else; a POST whose body holds
    neither [listingId] nor [listingData] is answered 400 with the message
    "Missing required parameter: listingId or listingData" and nothing
    else; a POST whose processing raises an error is answered 500 with
    [success: false], the message of the error and the elapsed time.  These
    are the only ways to get the three statuses, so the elapsed time is in
    the 500 answers and in neither of the other two. *)
Theorem failure_responses (w : World) (req : request) :
  (String.eqb (method req) "POST" = false →
   handler w req =
     ([], Ok (Response 405 (obj [("error", VStr "Method not allowed")]))))
  ∧ (String.eqb (method req) "POST" = true →
     missing_both (req_body req) = true →
     handler w req =
       ([Console "log"],
        Ok (Response 400
              (obj [("error",
                     VStr "Missing required parameter: listingId or listingData")]))))
  ∧ (∀ (t : list event) (e : error),
       String.eqb (method req) "POST" = true →
       attempt w req = (t, Throw e) →
       handler w req =
         (Console "log" :: t ++ [Console "error"],
          Ok (Response 500
                (obj [("success", VBool false);
                      ("error", VStr (message e));
                      ("stack", if is_str (env w "NODE_ENV") "development"
                                then stack_of w e else VUndefined);
                      ("renderTime", VStr (totalTime w))]))))
  ∧ ∃ (t : list event) (r : response),
      handler w req = (t, Ok r)
      ∧ (status r = 405%Z ↔ String.eqb (method req) "POST" = false)
      ∧ (status r = 400%Z ↔
         String.eqb (method req) "POST" = true ∧ missing_both (req_body req) = true)
      ∧ (status r = 500%Z ↔
         String.eqb (method req) "POST" = true
         ∧ ∃ t' e, attempt w req = (t', Throw e))
      ∧ (status r = 405%Z ∨ status r = 400%Z →
         (∃ msg : string, body r = obj [("error", VStr msg)])
         ∧ field r "renderTime" = None)
      ∧ (status r = 500%Z →
         field r "success" = Some (VBool false)
         ∧ (∃ msg : string, field r "error" = Some (VStr msg))
         ∧ field r "renderTime" = Some (VStr (totalTime w))).
Proof.
  assert (String.eqb (method req) "POST" = true →
          missing_both (req_body req) = true →
          handler w req =
            ([Console "log"],
             Ok (Response 400
                   (obj [("error",
                          VStr "Missing required parameter: listingId or listingData")]))))
    as H400.
  { intros Hm Hmissing. unfold handler.
    rewrite Hm. cbn [negb]. rewrite console_bind.
    by rewrite (attempt_rejects w req). }
  assert (∀ (t : list event) (e : error),
            String.eqb (method req) "POST" = true →
            attempt w req = (t, Throw e) →
            handler w req =
              (Console "log" :: t ++ [Console "error"],
               Ok (Response 500
                     (obj [("success", VBool false);
                           ("error", VStr (message e));
                           ("stack", if is_str (env w "NODE_ENV") "development"
                                     then stack_of w e else VUndefined);
                           ("renderTime", VStr (totalTime w))]))))
    as H500.
  { intros t e Hm Hbody. unfold handler.
    rewrite Hm. cbn [negb]. rewrite console_bind, Hbody, try_catch_throw.
    reflexivity. }
  split; [by unfold handler; intros ->|].
  split; [exact H400|]. split; [exact H500|].
  destruct (String.eqb (method req) "POST") eqn:Hm.
  2:{ eexists _, _. split; [unfold handler; by rewrite Hm|]. cbn [status].
      split; [done|].
      split; [split; [done|by intros [? _]]|].
      split; [split; [done|by intros [? _]]|].
      split; [intros _; split; [by eexists|done]|]. done. }
  destruct (attempt w req) as [t [r|e]] eqn:Hbody.
  - exists (Console "log" :: t), r.
    split; [unfold handler; by rewrite Hm, console_bind, Hbody, try_catch_ok|].
    assert (result (attempt w req) = Ok r) as Hr by (by rewrite Hbody).
    apply attempt_ok_inv in Hr as [(Hmissing & Hs)|(Hs & Hsucc & Htime)].
    + pose proof (attempt_rejects w req Hmissing) as Hrej.
      rewrite Hbody in Hrej. injection Hrej as -> ->.
      cbn [status].
      split; [done|].
      split; [done|].
      split; [split; [done|by intros (_ & ? & ? & [=])]|].
      split; [intros _; split; [by eexists|done]|]. done.
    + rewrite Hs.
      split; [done|].
      split.
      { split; [done|]. intros (_ & Hmissing).
        pose proof (attempt_rejects w req Hmissing) as Hrej.
        rewrite Hbody in Hrej. injection Hrej as -> ->. done. }
      split; [split; [done|by intros (_ & ? & ? & [=])]|].
      split; [by intros [|]|]. done.
  - eexists _, _. split; [by apply H500|]. cbn [status].
    split; [done|].
    split.
    { split; [done|]. intros (_ & Hmissing).
      pose proof (attempt_rejects w req Hmissing) as Hrej.
      by rewrite Hbody in Hrej. }
    split; [split; [intros _; split; [done|by eauto]|done]|].
    split; [by intros [|]|].
    intros _. split; [done|]. split; [by eexists|done].
Qed.

(** C4 (as amended).  A POST that carries a [listingId] and no
    [listingData], for which the data store answers with an error or
    without a row, is answered 500 with [success: false], the elapsed time
    and the message "Failed to fetch listing: " followed by the message of
    the store's error ("undefined" when there is none), and by nothing
    else.  Only the fetch is attempted.  An id that cannot be written as
    text is answered 500 before the fetch, and so is a store message that
    cannot, after it. *)
Theorem fetch_failure (w : World) (b : gmap string value) (listingId : value) (q : query) :
  b !! "listingId" = Some listingId →
  truthy listingId = true →
  truthy (default VUndefined (b !! "listingData")) = false →
  select_single w "listings" listingId = Ok q →
  truthy (query_error q) || negb (truthy (data q)) = true →
  let failure (e : error) :=
    Response 500
      (obj [("success", VBool false);
            ("error", VStr (message e));
            ("stack", if is_str (env w "NODE_ENV") "development"
                      then stack_of w e else VUndefined);
            ("renderTime", VStr (totalTime w))]) in
  (∀ id reason : string,
     to_string listingId = Ok id →
     to_string (get_opt (query_error q) "message") = Ok reason →
     handler w (Request "POST" (VObj b)) =
       ([Console "log"; Console "log"; SelectSingle "listings" listingId; Console "error"],
        Ok (failure (Error ("Failed to fetch listing: " +:+ reason)))))
  ∧ (∀ e : error,
       to_string listingId = Throw e →
       handler w (Request "POST" (VObj b)) =
         ([Console "log"; Console "error"],
          Ok (failure (Error "Cannot convert object to primitive value"))))
  ∧ (∀ (id : string) (e : error),
       to_string listingId = Ok id →
       to_string (get_opt (query_error q) "message") = Throw e →
       handler w (Request "POST" (VObj b)) =
         ([Console "log"; Console "log"; SelectSingle "listings" listingId; Console "error"],
          Ok (failure (Error "Cannot convert object to primitive value")))).
Proof.
  intros Hid Htruthy Hdata Hq Hfail failure. subst failure.
  split; [|split].
  - intros id reason Htext Hreason.
    unfold handler, attempt, resolve_listing, failure_response.
    cbn -[obj totalTime pipeline]. rewrite Hid. cbn -[obj totalTime pipeline].
    rewrite Htruthy, Hdata. cbn -[obj totalTime pipeline].
    rewrite Htext. cbn -[obj totalTime pipeline].
    rewrite Hq. cbn -[obj totalTime pipeline]. rewrite Hfail, Hreason.
    reflexivity.
  - intros e He. rewrite (to_string_throws _ _ He) in He.
    unfold handler, attempt, resolve_listing, failure_response.
    cbn -[obj totalTime pipeline]. rewrite Hid. cbn -[obj totalTime pipeline].
    rewrite Htruthy, Hdata. cbn -[obj totalTime pipeline].
    rewrite He. reflexivity.
  - intros id e Htext He. rewrite (to_string_throws _ _ He) in He.
    unfold handler, attempt, resolve_listing, failure_response.
    cbn -[obj totalTime pipeline]. rewrite Hid. cbn -[obj totalTime pipeline].
    rewrite Htruthy, Hdata. cbn -[obj totalTime pipeline].
    rewrite Htext. cbn -[obj totalTime pipeline].
    rewrite Hq. cbn -[obj totalTime pipeline]. rewrite Hfail, He.
    reflexivity.
Qed.

End RenderFacts.

(** * Weight and logo in the bag *)

Module FieldFacts.
Import Str JS StrFacts JSFacts MFacts BagFacts.

(** C6 (as amended).  In the bag of either entry point the key
    [specifications.weight] is always there.  It holds the text
    "<weight> oz" when the listing's weight is truthy and can be written as
    text: a number other than 0 (and NaN) gives its numeral, so weight 1
    gives "1 oz".  It holds [undefined], neither 0 nor the empty string,
    when the weight is missing, null, 0 or empty.  A truthy weight that
    cannot be written as text leaves no bag at all: the render endpoint's
    preparation throws and the webhook's job is null. *)
Theorem weight_field (w : World) (listing seller : value) :
  truthy listing = true →
  truthy seller = true →
  let weight := get_opt listing "weight" in
  (∀ text : string,
     truthy weight = true → to_string weight = Ok text →
     ∃ specifications : value,
       specifications_of listing = Ok specifications
       ∧ own specifications "weight" = Some (VStr (text +:+ " oz")))
  ∧ (∀ n : number,
       weight = VNum n → nonzero n = true →
       ∃ specifications : value,
         specifications_of listing = Ok specifications
         ∧ own specifications "weight" = Some (VStr (numeral n +:+ " oz")))
  ∧ (weight = VNum (int 1) →
     ∃ specifications : value,
       specifications_of listing = Ok specifications
       ∧ own specifications "weight" = Some (VStr "1 oz"))
  ∧ (truthy weight = false →
     ∃ specifications : value,
       specifications_of listing = Ok specifications
       ∧ own specifications "weight" = Some VUndefined)
  ∧ (∀ e : error,
       truthy weight = true → to_string weight = Throw e →
       specifications_of listing = Throw e
       ∧ (∃ e' : error, result (Render.prepare_props w listing seller) = Throw e')
       ∧ result (Webhook.generateVideoReel w listing seller) = Ok VNull)
  ∧ (∀ specifications t text input,
       specifications_of listing = Ok specifications →
       Render.description_input listing = Ok input →
       Description.generateDetailedDescription w input = (t, Ok text) →
       ∃ bag, result (Render.prepare_props w listing seller) = Ok bag
              ∧ own bag "specifications" = Some specifications)
  ∧ (∀ (specifications : value) (title id base : string),
       specifications_of listing = Ok specifications →
       to_string (get_opt listing "title") = Ok title →
       to_string (get_opt listing "id") = Ok id →
       to_string (env w "NEXT_PUBLIC_APP_URL") = Ok base →
       get_cookies w = Ok tt → create_client w = Ok tt →
       ∃ job videoData,
         result (Webhook.generateVideoReel w listing seller) = Ok job
         ∧ truthy job = true
         ∧ own job "videoData" = Some videoData
         ∧ own videoData "specifications" = Some specifications).
Proof.
  intros Hl Hs weight.
  pose proof (specifications_of_truthy listing Hl) as Hspec.
  fold weight in Hspec. unfold weight_label in Hspec.
  assert (∀ text : string,
            truthy weight = true → to_string weight = Ok text →
            ∃ specifications : value,
              specifications_of listing = Ok specifications
              ∧ own specifications "weight" = Some (VStr (text +:+ " oz"))) as Hlabel.
  { intros text Ht Htext. rewrite Ht, Htext in Hspec.
    eexists. split; [exact Hspec|]. reflexivity. }
  split; [exact Hlabel|].
  split; [intros n Hn Hnz; apply Hlabel; by rewrite Hn|].
  split; [intros H1; apply (Hlabel "1"); by rewrite H1|].
  split.
  { intros Hf. rewrite Hf in Hspec. eexists. split; [exact Hspec|]. reflexivity. }
  split.
  { intros e Ht He. rewrite Ht, He in Hspec. cbn [mbind outcome_bind] in Hspec.
    split; [exact Hspec|].
    split; [by apply (prepare_props_throws w listing seller e)|].
    by apply (generateVideoReel_null w listing seller e). }
  split.
  - intros specifications t text input Hspecs Hinput Hd.
    destruct (prepare_props_ok w listing seller specifications t text Hl Hs Hspecs)
      as (input' & Hinput' & Hbag).
    rewrite Hinput in Hinput'. injection Hinput' as <-.
    rewrite (Hbag Hd). eexists. split; reflexivity.
  - intros specifications title id base Hspecs Htitle Hid Hbase Hcookies Hclient.
    destruct (generateVideoReel_ok w listing seller specifications title id base
                Hl Hs Htitle Hid Hbase Hspecs Hcookies Hclient)
      as (t & text & _ & Hjob).
    rewrite Hjob. eexists _, _. split; [reflexivity|]. split; [done|].
    split; reflexivity.
Qed.

(** The webhook resolves the logo from the configured base address. *)
Lemma webhook_logo (w : World) (listing seller specifications : value)
    (title id base : string) :
  truthy listing = true → truthy seller = true →
  to_string (get_opt listing "title") = Ok title →
  to_string (get_opt listing "id") = Ok id →
  to_string (env w "NEXT_PUBLIC_APP_URL") = Ok base →
  specifications_of listing = Ok specifications →
  get_cookies w = Ok tt → create_client w = Ok tt →
  ∃ job, result (Webhook.generateVideoReel w listing seller) = Ok job
         ∧ path_opt job ["videoData"; "logoUrl"] =
             (if truthy (env w "NEXT_PUBLIC_APP_URL")
              then VStr (base +:+ "/peermetals.png")
              else VStr "https://peermetals.com/peermetals.png").
Proof.
  intros Hl Hs Htitle Hid Hbase Hspec Hcookies Hclient.
  destruct (generateVideoReel_ok w listing seller specifications title id base
              Hl Hs Htitle Hid Hbase Hspec Hcookies Hclient)
    as (t & text & _ & Hjob).
  rewrite Hjob. eexists. split; [reflexivity|]. reflexivity.
Qed.

(** The render endpoint writes the same address whatever is configured. *)
Lemma render_logo (w : World) (listing seller bag : value) :
  result (Render.prepare_props w listing seller) = Ok bag →
  own bag "logoUrl" = Some (VStr "https://peermetals.com/peermetals.png").
Proof. intros H. by apply prepare_props_inv in H as (? & _ & _ & ?). Qed.

End FieldFacts.

(** * Scenarios: the theorems at concrete inputs *)

Module Scenarios.
Import Str JS Sample.

(** ** Webhook *)

(** The second end-to-end scenario of the specification, as written there
    (event type "insert"): the event is skipped, but for its type; the
    reason does not mention the status.  And a status that cannot be
    written as text is not a skip: the validator fails while it composes
    its message, and the answer is 500. *)
Lemma lowercase_insert_reason :
  result (Webhook.POST healthy (Ok (envelope "insert" "draft" []))) =
    Ok (Response 200
          (obj [("success", VBool true);
                ("message", VStr "Webhook skipped");
                ("reason",
                 VStr "Invalid webhook type - only INSERT events are supported")]))
  ∧ includes "not active"
             "Invalid webhook type - only INSERT events are supported" = false
  ∧ Webhook.POST healthy
      (Ok (obj [("type", VStr "INSERT"); ("table", VStr "listings");
                ("record", obj [("id", VStr "x"); ("title", VStr "T");
                                ("user_id", VStr "u"); ("status", unprintable)])])) =
      ([Console "log"; Console "error"; Console "error"],
       Ok (Response 500
             (obj [("success", VBool false);
                   ("error", VStr "Cannot convert object to primitive value")]))).
Proof. repeat split; reflexivity. Qed.

Lemma inactive_listing_is_skipped_witness :
  Webhook.POST healthy (Ok (envelope "INSERT" "draft" [])) =
    ([Console "log"; Console "error"; Console "log"],
     Ok (Response 200
           (obj [("success", VBool true);
                 ("message", VStr "Webhook skipped");
                 ("reason",
                  VStr "Listing status 'draft' not active - skipping video generation")])))
  ∧ includes "not active"
             "Listing status 'draft' not active - skipping video generation" = true.
Proof.
  pose (fields := list_to_map [("type", VStr "INSERT"); ("table", VStr "listings");
                               ("record", record "draft" [])] : gmap string value).
  destruct (WebhookFacts.inactive_listing_is_skipped healthy fields (record "draft" [])
              ltac:(vm_compute; reflexivity) ltac:(vm_compute; reflexivity)
              ltac:(vm_compute; reflexivity) ltac:(vm_compute; reflexivity)
              ltac:(vm_compute; reflexivity)) as (Hskip & _ & _).
  apply (Hskip "draft"). vm_compute. reflexivity.
Defined.

Lemma unexpected_error_status_witness :
  ∃ r : response,
    Webhook.POST profile_lookup_throws (Ok (envelope "INSERT" "active" [])) =
      ([Console "log"; GetCookies; CreateClient; SelectSingle "profiles" (VStr "u")]
         ++ [Console "error"], Ok r)
    ∧ field r "success" = Some (VBool false)
    ∧ field r "error" = Some (VStr "Missing authorization header")
    ∧ (status r = 400%Z ↔ includes "Missing" "Missing authorization header" = true)
    ∧ (status r = 500%Z ↔ includes "Missing" "Missing authorization header" = false).
Proof.
  apply (WebhookFacts.unexpected_error_status profile_lookup_throws
           (Ok (envelope "INSERT" "active" []))
           [Console "log"; GetCookies; CreateClient; SelectSingle "profiles" (VStr "u")]
           (Error "Missing authorization header"));
    reflexivity.
Defined.

(** A description that is nothing but markup comes back empty, and a long
    category makes the fallback sentence longer than 150 characters.  A
    category that cannot be written as text leaves the builder with its
    last sentence. *)
Lemma markup_only_description_is_empty :
  result (Webhook.generateListingDescription markup_only) = Ok ""
  ∧ exceeds_10 (path_opt markup_only ["description"; "length"]) = Ok true
  ∧ (∃ text : string,
       result (Webhook.generateListingDescription long_category) = Ok text
       ∧ len text = 183)
  ∧ Webhook.generateListingDescription (obj [("tier1_category", unprintable)]) =
      ([Console "error"], Ok "Premium precious metal item available now.").
Proof.
  split; [reflexivity|]. split; [reflexivity|].
  split; [eexists; split; reflexivity|]. reflexivity.
Qed.

Lemma listing_description_builder_witness :
  ∃ text : string,
    result (Webhook.generateListingDescription
              (obj [("description", VStr "<b>Rare</b> 1 oz gold coin")])) = Ok text
    ∧ text = "Rare 1 oz gold coin".
Proof.
  destruct (ListingDescriptionFacts.listing_description_builder
              (obj [("description", VStr "<b>Rare</b> 1 oz gold coin")]))
    as (text & Hresult & _ & Hlong & _).
  exists text. split; [exact Hresult|].
  assert (10 < len "<b>Rare</b> 1 oz gold coin") as Hlen by (vm_compute; lia).
  destruct (Hlong "<b>Rare</b> 1 oz gold coin" eq_refl Hlen) as (_ & _ & Hwhole & _).
  apply Hwhole. vm_compute. lia.
Defined.

(** A weight of 0 is a numeric weight, and it gets no label; without a
    weight the key is still in the bag, holding [undefined]; with a weight
    that cannot be written as text there is no bag. *)
Lemma zero_weight_has_no_label :
  (∃ r : response,
     result (Webhook.POST healthy
               (Ok (envelope "INSERT" "active" [("weight", VNum (int 0))]))) = Ok r
     ∧ status r = 200%Z
     ∧ own (path_opt (body r) ["videoData"; "specifications"]) "weight"
       = Some VUndefined
     ∧ own (path_opt (body r) ["videoData"; "specifications"]) "weight"
       ≠ Some (VStr "0 oz"))
  ∧ (λ bag, own (path_opt bag ["specifications"]) "weight")
      <$> selected_props
            (trace (Render.handler healthy
                      (post (obj [("listingData", obj [("weight", VNum (int 0))])]))))
    = [Some VUndefined]
  ∧ (∃ r : response,
       result (Webhook.POST healthy (Ok (envelope "INSERT" "active" []))) = Ok r
       ∧ status r = 200%Z
       ∧ own (path_opt (body r) ["videoData"; "specifications"]) "weight"
         = Some VUndefined
       ∧ own (path_opt (body r) ["videoData"; "specifications"]) "weight" ≠ None)
  ∧ (λ bag, own (path_opt bag ["specifications"]) "weight")
      <$> selected_props
            (trace (Render.handler healthy
                      (post (obj [("listingData", obj [("title", VStr "T")])]))))
    = [Some VUndefined]
  ∧ (∃ r : response,
       result (Webhook.POST healthy
                 (Ok (envelope "INSERT" "active" [("weight", unprintable)]))) = Ok r
       ∧ status r = 500%Z
       ∧ field r "error" = Some (VStr "Failed to generate video reel"))
  ∧ (∃ r : response,
       result (Render.handler healthy
                 (post (obj [("listingData", obj [("weight", unprintable)])]))) = Ok r
       ∧ status r = 500%Z
       ∧ field r "error" = Some (VStr "Cannot convert object to primitive value"))
  ∧ selected_props
      (trace (Render.handler healthy
                (post (obj [("listingData", obj [("weight", unprintable)])])))) = [].
Proof.
  split; [eexists; split; [reflexivity|]; split; [reflexivity|];
          split; [reflexivity|discriminate]|].
  split; [reflexivity|].
  split; [eexists; split; [reflexivity|]; split; [reflexivity|];
          split; [reflexivity|discriminate]|].
  split; [reflexivity|].
  split; [eexists; repeat split; reflexivity|].
  split; [eexists; repeat split; reflexivity|].
  reflexivity.
Qed.

Lemma weight_field_witness :
  ∃ specifications : value,
    specifications_of inline_listing = Ok specifications
    ∧ own specifications "weight" = Some (VStr "1 oz").
Proof.
  destruct (FieldFacts.weight_field healthy inline_listing fallback_seller_render
              eq_refl eq_refl)
    as (_ & _ & Hone & _).
  apply Hone. reflexivity.
Defined.

(** ** Description generator *)

Lemma fallback_description_priority_witness :
  Description.generateFallbackDescription
    (obj [("title", VStr "Gold Eagle");
          ("specifications",
           obj [("purity", VStr ".999"); ("year", VStr "2024");
                ("category", VStr "Gold")])])
  = Ok ".999 purity gold from 2024. Exceptional quality.".
Proof.
  destruct (DescriptionFacts.fallback_description_priority
              (obj [("title", VStr "Gold Eagle");
                    ("specifications",
                     obj [("purity", VStr ".999"); ("year", VStr "2024");
                          ("category", VStr "Gold")])])
              "Gold" ".999" "2024" "undefined"
              ltac:(discriminate) ltac:(discriminate)
              ltac:(left; split; [vm_compute; reflexivity | discriminate])
              ltac:(vm_compute; reflexivity) ltac:(vm_compute; reflexivity)
              ltac:(vm_compute; reflexivity))
    as (text & Hresult & Hshort & _).
  rewrite Hresult. f_equal. apply Hshort. vm_compute. lia.
Defined.

(** A purity of 0 is there, yet the template is the one for a year alone;
    a category that is a number leaves no description at all, and neither
    does a purity that cannot be written as text. *)
Lemma fallback_description_exceptions :
  Description.generateFallbackDescription zero_purity
    = Ok "Collectible precious metal from 2024. Excellent specimen."
  ∧ Description.generateFallbackDescription numeric_category
    = Throw (Error "category.toLowerCase is not a function")
  ∧ Description.generateFallbackDescription
      (obj [("specifications", obj [("purity", unprintable); ("year", VStr "2024")])])
    = Throw (Error "Cannot convert object to primitive value").
Proof. repeat split; reflexivity. Qed.

(** The service opens its answer with a quote and never closes it: the
    code removes the quote, the rule of the specification keeps it. *)
Lemma unclosed_quote_is_stripped :
  result (Description.generateDetailedDescription
            (service_answers unclosed_quote)
            (obj [("title", VStr "Gold Eagle")])) = Ok "Hello"
  ∧ ends_with_quote (trim unclosed_quote) = false
  ∧ ellipsize 80 (strip_wrapping_pair_spec (trim unclosed_quote)) = unclosed_quote
  ∧ unclosed_quote ≠ "Hello".
Proof. repeat split; try reflexivity. discriminate. Qed.

Lemma detailed_description_from_service_witness :
  ∃ stripped out : string,
    result (Description.generateDetailedDescription
              (service_answers unclosed_quote)
              (obj [("title", VStr "Gold Eagle")])) = Ok out
    ∧ stripped = "Hello"
    ∧ len out ≤ 80.
Proof.
  destruct (Description.detailed_prompt (obj [("title", VStr "Gold Eagle")]))
    as [prompt|e] eqn:Hprompt; [|discriminate].
  destruct (DetailedFacts.detailed_description_from_service
              (service_answers unclosed_quote)
              (obj [("title", VStr "Gold Eagle")]) prompt unclosed_quote
              eq_refl Hprompt eq_refl)
    as (stripped & out & Hresult & _ & _ & Hlead & _ & _ & _ & _ & Hlen).
  exists stripped, out. split; [by rewrite Hresult|].
  split; [|exact Hlen].
  apply (Hlead dquote "Hello"); reflexivity.
Defined.

(** ** Render endpoint *)

(** The first end-to-end scenario of the specification: no row for "abc".
    The answer is 500; its message names the store's error, not the id.
    An id that cannot be written as text never reaches the store. *)
Lemma missing_row_message_lacks_id :
  select_single healthy "listings" (VStr "abc") = no_row
  ∧ (∃ r : response,
       result (Render.handler healthy (post (obj [("listingId", VStr "abc")]))) = Ok r
       ∧ status r = 500%Z
       ∧ field r "error" =
           Some (VStr "Failed to fetch listing: JSON object requested, multiple (or no) rows returned")
       ∧ includes "abc"
           "Failed to fetch listing: JSON object requested, multiple (or no) rows returned"
         = false)
  ∧ Render.handler healthy (post (obj [("listingId", unprintable)])) =
      ([Console "log"; Console "error"],
       Ok (Response 500
             (obj [("success", VBool false);
                   ("error", VStr "Cannot convert object to primitive value");
                   ("stack", VUndefined);
                   ("renderTime", VStr "45.23")]))).
Proof.
  split; [reflexivity|]. split; [eexists; repeat split; reflexivity|]. reflexivity.
Qed.

Lemma fetch_failure_witness :
  ∃ r : response,
    Render.handler healthy (post (obj [("listingId", VStr "abc")])) =
      ([Console "log"; Console "log"; SelectSingle "listings" (VStr "abc"); Console "error"],
       Ok r)
    ∧ status r = 500%Z
    ∧ field r "error" =
        Some (VStr "Failed to fetch listing: JSON object requested, multiple (or no) rows returned")
    ∧ field r "renderTime" = Some (VStr "45.23").
Proof.
  pose (fields := list_to_map [("listingId", VStr "abc")] : gmap string value).
  pose (answer := Query VNull
                    (obj [("code", VStr "PGRST116");
                          ("message",
                           VStr "JSON object requested, multiple (or no) rows returned")])).
  destruct (RenderFacts.fetch_failure healthy fields (VStr "abc") answer
              ltac:(vm_compute; reflexivity) ltac:(vm_compute; reflexivity)
              ltac:(vm_compute; reflexivity) ltac:(vm_compute; reflexivity)
              ltac:(vm_compute; reflexivity)) as (Hrun & _ & _).
  specialize (Hrun "abc" "JSON object requested, multiple (or no) rows returned"
                ltac:(vm_compute; reflexivity) ltac:(vm_compute; reflexivity)).
  change (Render.Request "POST" (VObj fields))
    with (post (obj [("listingId", VStr "abc")])) in Hrun.
  rewrite Hrun. eexists. repeat split; reflexivity.
Defined.

(** A request that is rejected before the pipeline starts is answered
    without an elapsed time. *)
Lemma early_rejections_carry_no_time :
  (∃ r : response,
     result (Render.handler healthy (Render.Request "GET" VUndefined)) = Ok r
     ∧ status r = 405%Z
     ∧ field r "error" = Some (VStr "Method not allowed")
     ∧ field r "renderTime" = None)
  ∧ (∃ r : response,
       result (Render.handler healthy (post (obj []))) = Ok r
       ∧ status r = 400%Z
       ∧ field r "error"
         = Some (VStr "Missing required parameter: listingId or listingData")
       ∧ field r "renderTime" = None).
Proof. split; eexists; repeat split; reflexivity. Qed.

Lemma failure_responses_witness :
  Render.handler healthy (Render.Request "GET" VUndefined) =
    ([], Ok (Response 405 (obj [("error", VStr "Method not allowed")])))
  ∧ Render.handler healthy (post (obj [])) =
      ([Console "log"],
       Ok (Response 400
             (obj [("error",
                    VStr "Missing required parameter: listingId or listingData")])))
  ∧ ∃ t : list event,
      Render.handler healthy (post VUndefined) =
        (Console "log" :: t ++ [Console "error"],
         Ok (Response 500
               (obj [("success", VBool false);
                     ("error",
                      VStr "Cannot destructure property 'listingId' of 'req.body' as it is undefined.");
                     ("stack", VUndefined);
                     ("renderTime", VStr "45.23")]))).
Proof.
  split; [|split].
  - destruct (RenderFacts.failure_responses healthy (Render.Request "GET" VUndefined))
      as (H405 & _).
    apply H405. reflexivity.
  - destruct (RenderFacts.failure_responses healthy (post (obj [])))
      as (_ & H400 & _).
    apply H400; reflexivity.
  - destruct (RenderFacts.failure_responses healthy (post VUndefined))
      as (_ & _ & H500 & _).
    exists [].
    apply (H500 []
             (Error "Cannot destructure property 'listingId' of 'req.body' as it is undefined."));
      reflexivity.
Defined.

(** C3, at a world whose storage refuses the upload: the video was
    rendered to the temporary file and read back, the answer is 500, and
    the file was never unlinked; when it is the record update that fails,
    the answer is 200 and the file is unlinked once. *)
Theorem upload_failure_skips_cleanup :
  let failed := Render.handler upload_fails (post (obj [("listingData", inline_listing)])) in
  let updated := Render.handler update_fails (post (obj [("listingData", inline_listing)])) in
  (∃ r : response,
     result failed = Ok r
     ∧ status r = 500%Z
     ∧ field r "error" = Some (VStr "Upload failed: Bucket not found"))
  ∧ rendered (trace failed) = ["/tmp/listing-l1-1700000030000.mp4"]
  ∧ unlinked (trace failed) = []
  ∧ (∃ r : response, result updated = Ok r ∧ status r = 200%Z)
  ∧ unlinked (trace updated) = ["/tmp/listing-l1-1700000030000.mp4"].
Proof.
  cbv zeta. split; [eexists; repeat split; reflexivity|].
  split; [reflexivity|]. split; [reflexivity|].
  split; [eexists; split; reflexivity|]. reflexivity.
Qed.

(** C7, at a deployment whose base address is configured: the webhook
    builds the logo address from it, the render endpoint hands the
    composition the fixed address. *)
Theorem render_logo_ignores_base_address :
  env staging "NEXT_PUBLIC_APP_URL" = VStr "https://staging.peermetals.com"
  ∧ (λ bag, get_opt bag "logoUrl")
      <$> selected_props
            (trace (Render.handler staging (post (obj [("listingData", inline_listing)]))))
    = [VStr "https://peermetals.com/peermetals.png"]
  ∧ ∃ r : response,
      result (Webhook.POST staging (Ok (envelope "INSERT" "active" []))) = Ok r
      ∧ path_opt (body r) ["videoData"; "logoUrl"]
        = VStr "https://staging.peermetals.com/peermetals.png".
Proof. split; [reflexivity|]. split; [reflexivity|]. eexists. split; reflexivity. Qed.

End Scenarios.

(** * Markup stripping *)

Module MarkupFacts.
Import Str StrFacts.

Lemma strip_from_keeps_no_closer (s : string) (inside : bool) :
  has_char ">" (strip_from inside s) = true → has_char ">" s = true.
Proof.
  revert inside. induction s as [|c s IH]; intros inside; simpl; [done|].
  destruct inside.
  - destruct (eqc c ">"); [done|]. intros H. rewrite (IH _ H). apply orb_true_r.
  - destruct (eqc c "<" && has_char ">" s) eqn:Hopen.
    + intros H. rewrite (IH _ H). apply orb_true_r.
    + simpl. destruct (eqc c ">"); [done|]. simpl. apply IH.
Qed.

Lemma strip_from_no_tag (s : string) (inside : bool) :
  has_tag (strip_from inside s) = false.
Proof.
  revert inside. induction s as [|c s IH]; intros inside; simpl; [done|].
  destruct inside.
  - destruct (eqc c ">"); apply IH.
  - destruct (eqc c "<" && has_char ">" s) eqn:Hopen; [apply IH|].
    simpl. rewrite IH, orb_false_r.
    apply andb_false_iff in Hopen as [->|Hnone]; [done|].
    destruct (has_char ">" (strip_from false s)) eqn:Hkept; [|apply andb_false_r].
    apply strip_from_keeps_no_closer in Hkept. congruence.
Qed.

Lemma len_strip_from (s : string) (inside : bool) :
  len (strip_from inside s) ≤ len s.
Proof.
  revert inside. induction s as [|c s IH]; intros inside; simpl; [done|].
  unfold len in *. simpl.
  destruct inside.
  - destruct (eqc c ">"); [specialize (IH false)|specialize (IH true)]; lia.
  - destruct (eqc c "<" && has_char ">" s); simpl;
      [specialize (IH true)|specialize (IH false)]; lia.
Qed.

Lemma strip_tags_plain (s : string) :
  has_tag s = false → strip_tags s = s.
Proof.
  unfold strip_tags. induction s as [|c s IH]; simpl; [done|].
  intros H. apply orb_false_iff in H as [-> Hrest]. by rewrite IH.
Qed.

(** X1.  After [replace(/<[^>]*>/g, '')] no tag is left: in the result no
    [<] is followed, anywhere later, by a [>].  The result is never longer
    than the text, a text without a tag is returned unchanged, and stripping
    twice is the same as stripping once. *)
Theorem strip_tags_leaves_no_tag (s : string) :
  has_tag (strip_tags s) = false
  ∧ len (strip_tags s) ≤ len s
  ∧ (has_tag s = false → strip_tags s = s)
  ∧ strip_tags (strip_tags s) = strip_tags s.
Proof.
  split; [apply strip_from_no_tag|].
  split; [apply len_strip_from|].
  split; [apply strip_tags_plain|].
  apply strip_tags_plain, strip_from_no_tag.
Qed.

End MarkupFacts.

(** * The description generators *)

Module GeneratorFacts.
Import Str JS Description VideoDescription StrFacts JSFacts MFacts.

(** The fallback composer returns for a listing whose category is text or
    missing and whose fields can be written as text. *)
Lemma fallback_description_ok (listing : value) (c p y k : string) :
  let specifications := get_opt listing "specifications" in
  listing ≠ VUndefined → listing ≠ VNull →
  or_else (get_opt specifications "category") (VStr "precious metal") = VStr c →
  to_string (get_opt specifications "purity") = Ok p →
  to_string (get_opt specifications "year") = Ok y →
  to_string (get_opt specifications "condition") = Ok k →
  ∃ text, generateFallbackDescription listing = Ok text ∧ len text ≤ 120.
Proof.
  intros specifications Hu Hn Hc Hp Hy Hk.
  unfold generateFallbackDescription.
  assert (destructure_listing listing = Ok specifications) as -> by by destruct listing.
  cbn [mbind outcome_bind]. rewrite Hc, !truthy_or_empty.
  unfold condition_or. rewrite truthy_or_empty.
  destruct (truthy (get_opt specifications "purity")) eqn:Htp,
           (truthy (get_opt specifications "year")) eqn:Hty,
           (truthy (get_opt specifications "condition")) eqn:Htc;
    cbn [andb];
    rewrite ?(or_else_truthy (get_opt specifications "purity")),
            ?(or_else_truthy (get_opt specifications "year")),
            ?(or_else_truthy (get_opt specifications "condition")) by done;
    rewrite ?Hp, ?Hy, ?Hk; cbn [mbind outcome_bind lower_of mret outcome_ret];
    (eexists; split; [reflexivity|apply len_ellipsize; lia]).
Qed.

Lemma fallback_detailed_ok (listing : value) (c : string) :
  listing ≠ VUndefined → listing ≠ VNull →
  or_else (get_opt (get_opt listing "specifications") "category")
          (VStr "precious metal") = VStr c →
  generateFallbackDetailed listing
  = Ok ("Discover this exceptional " +:+ toLowerCase c +:+ " piece.").
Proof.
  intros Hu Hn Hc. unfold generateFallbackDetailed.
  assert (get listing "specifications" = Ok (get_opt listing "specifications")) as ->
    by (unfold get_opt; by destruct listing).
  cbn [mbind outcome_bind]. by rewrite Hc.
Qed.

(** X2.  Without an API key both generators stay local: they make no
    external call, and what they return, or throw, is exactly what the
    fallback composer returns or throws for the listing. *)
Theorem generators_without_key_stay_local (w : World) (listing : value) :
  truthy (env w "NEXT_PUBLIC_GEMINI_API_KEY") = false →
  result (generateVideoDescription w listing) = generateFallbackDescription listing
  ∧ Forall (λ ev, is_external ev = false) (trace (generateVideoDescription w listing))
  ∧ result (generateDetailedDescription w listing) = generateFallbackDetailed listing
  ∧ Forall (λ ev, is_external ev = false) (trace (generateDetailedDescription w listing)).
Proof.
  intros Hkey.
  unfold generateVideoDescription, generateDetailedDescription. rewrite Hkey. simpl.
  destruct (generateFallbackDescription listing) as [text|e];
    destruct (generateFallbackDetailed listing) as [text'|e'];
    simpl; repeat split; by repeat constructor.
Qed.

(** X3.  When the service is configured and answers, the short description
    is the answer, trimmed, whole up to 150 characters and cut to 147
    characters plus "..." beyond; the service is called once and nothing else
    outside the process is.  An answer of white space only gives the empty
    description. *)
Theorem video_description_from_service
    (w : World) (listing : value) (prompt text : string) :
  truthy (env w "NEXT_PUBLIC_GEMINI_API_KEY") = true →
  video_prompt listing = Ok prompt →
  generate_content w prompt = Ok text →
  ∃ out : string,
    result (generateVideoDescription w listing) = Ok out
    ∧ (len (trim text) ≤ 150 → out = trim text)
    ∧ (150 < len (trim text) → out = take 147 (trim text) +:+ "...")
    ∧ len out ≤ 150
    ∧ (trim text = "" → out = "")
    ∧ List.filter is_external (trace (generateVideoDescription w listing))
      = [GenerateContent prompt].
Proof.
  intros Hkey Hprompt Htext.
  exists (ellipsize 150 (trim text)).
  unfold generateVideoDescription. rewrite Hkey, Hprompt.
  cbn -[take Nat.ltb]. rewrite Htext.
  split.
  { unfold ellipsize. change (150 - 3) with 147.
    by destruct (Nat.ltb 150 (len (trim text))). }
  split; [apply ellipsize_short|].
  split; [apply ellipsize_long|].
  split; [apply len_ellipsize; lia|].
  split; [by intros ->|].
  by destruct (Nat.ltb 150 (len (trim text))).
Qed.

(** X4.  When the service is configured and the call fails, each generator
    logs the error and answers with its fallback: one call to the service,
    then what the fallback composer gives for the listing. *)
Theorem service_failure_falls_back
    (w : World) (listing : value) (short long : string) (e1 e2 : error) :
  truthy (env w "NEXT_PUBLIC_GEMINI_API_KEY") = true →
  video_prompt listing = Ok short →
  detailed_prompt listing = Ok long →
  generate_content w short = Throw e1 →
  generate_content w long = Throw e2 →
  generateVideoDescription w listing
  = ([GenerateContent short; Console "error"], generateFallbackDescription listing)
  ∧ generateDetailedDescription w listing
    = ([GenerateContent long; Console "error"], generateFallbackDetailed listing).
Proof.
  intros Hkey Hshort Hlong H1 H2.
  unfold generateVideoDescription, generateDetailedDescription.
  rewrite Hkey, Hshort, Hlong. simpl. rewrite H1, H2. simpl.
  by destruct (generateFallbackDescription listing), (generateFallbackDetailed listing).
Qed.

(** X5.  For a listing whose category is text, or missing, and whose purity,
    year and condition can be written as text, neither generator ever
    throws, whatever the configuration and whatever the service does; the
    short description has at most 150 characters, and each generator calls
    the service at most once. *)
Theorem descriptions_never_throw (w : World) (listing : value) (c p y k : string) :
  let specifications := get_opt listing "specifications" in
  listing ≠ VUndefined → listing ≠ VNull →
  or_else (get_opt specifications "category") (VStr "precious metal") = VStr c →
  to_string (get_opt specifications "purity") = Ok p →
  to_string (get_opt specifications "year") = Ok y →
  to_string (get_opt specifications "condition") = Ok k →
  (∃ short : string,
     result (generateVideoDescription w listing) = Ok short ∧ len short ≤ 150)
  ∧ (∃ long : string, result (generateDetailedDescription w listing) = Ok long)
  ∧ length (List.filter is_generate (trace (generateVideoDescription w listing))) ≤ 1
  ∧ length (List.filter is_generate (trace (generateDetailedDescription w listing))) ≤ 1.
Proof.
  intros specifications Hu Hn Hc Hp Hy Hk.
  destruct (fallback_description_ok listing c p y k Hu Hn Hc Hp Hy Hk)
    as (fb & Hfb & Hlen).
  pose proof (fallback_detailed_ok listing c Hu Hn Hc) as Hfd.
  unfold generateVideoDescription, generateDetailedDescription.
  rewrite Hfb, Hfd.
  destruct (video_prompt listing) as [short|e1];
    destruct (detailed_prompt listing) as [long|e2];
    destruct (truthy (env w "NEXT_PUBLIC_GEMINI_API_KEY"));
    cbn -[take Nat.ltb];
    try destruct (generate_content w short) as [text1|e3];
    try destruct (generate_content w long) as [text2|e4]; cbn -[take Nat.ltb];
    try destruct (Nat.ltb_spec 150 (len (trim text1))); cbn -[take Nat.ltb];
    (split; [eexists; split; [reflexivity|]
            |split; [by eexists|split; lia]]);
    try lia;
    rewrite len_app, len_take; change (len "...") with 3; lia.
Qed.

End GeneratorFacts.

(** * The webhook entry point, continued *)

Module TraceFacts.

Lemma result_bind {A B : Type} (m : M A) (f : A → M B) :
  result (m ≫= f) =
  match result m with
  | Ok a => result (f a)
  | Throw e => Throw e
  end.
Proof.
  destruct m as [t [a|e]]; unfold mbind, M_bind, result; simpl; [|done].
  by destruct (f a).
Qed.

Lemma trace_try_catch {A : Type} (m : M A) (h : error → M A) :
  trace (try_catch m h) =
  trace m ++ match result m with
             | Ok _ => []
             | Throw e => trace (h e)
             end.
Proof.
  destruct m as [t [a|e]]; unfold try_catch, trace, result; simpl.
  - by rewrite app_nil_r.
  - by destruct (h e).
Qed.

Lemma result_try_catch {A : Type} (m : M A) (h : error → M A) :
  result (try_catch m h) =
  match result m with
  | Ok a => Ok a
  | Throw e => result (h e)
  end.
Proof.
  destruct m as [t [a|e]]; unfold try_catch, result; simpl; [done|].
  by destruct (h e).
Qed.

Lemma ok_bind {A B : Type} (t : list event) (a : A) (f : A → M B) :
  ((t, Ok a) ≫= f) = (t ++ trace (f a), result (f a)).
Proof. unfold mbind, M_bind, trace, result. by destruct (f a). Qed.

Section Allowed.
Variable allowed : event → bool.

(** Every call of a sequence is allowed when every call of its parts is. *)
Lemma allowed_bind {A B : Type} (c : M A) (f : A → M B) :
  forallb allowed (trace c) = true →
  (∀ a, forallb allowed (trace (f a)) = true) →
  forallb allowed (trace (c ≫= f)) = true.
Proof.
  intros Hc Hf. rewrite MFacts.trace_bind, forallb_app, Hc. cbn [andb].
  destruct (result c); [apply Hf|done].
Qed.

Lemma allowed_try_catch {A : Type} (c : M A) (h : error → M A) :
  forallb allowed (trace c) = true →
  (∀ e, forallb allowed (trace (h e)) = true) →
  forallb allowed (trace (try_catch c h)) = true.
Proof.
  intros Hc Hh. rewrite trace_try_catch, forallb_app, Hc. cbn [andb].
  destruct (result c); [done|apply Hh].
Qed.

End Allowed.

(** One step along a chain of binds. *)
Ltac climb_step :=
  lazymatch goal with
  | |- forallb _ (trace (try_catch _ _)) = true =>
      apply allowed_try_catch; [|intros ?]
  | |- forallb _ (trace (_ ≫= _)) = true =>
      apply allowed_bind; [|intros ?]
  | |- forallb _ (trace (if ?b then _ else _)) = true => destruct b
  | |- forallb _ (trace (lift _)) = true => reflexivity
  | |- forallb _ (trace (mret _)) = true => reflexivity
  | |- forallb _ (trace (console _)) = true => reflexivity
  | |- forallb _ (trace (call _ _)) = true => reflexivity
  end.

Ltac climb := repeat climb_step.

End TraceFacts.

Module WebhookMore.
Import Str JS Webhook StrFacts JSFacts MFacts WebhookFacts ListingDescriptionFacts BagFacts.
Import TraceFacts.

Lemma is_str_truthy (v : value) (lit : string) :
  lit ≠ "" → is_str v lit = true → truthy v = true.
Proof. destruct v; simpl; try done. intros Hlit ->%String.eqb_eq. by destruct lit. Qed.

Lemma get_readable (v : value) (k : string) :
  v ≠ VUndefined → v ≠ VNull → get v k = Ok (get_opt v k).
Proof. unfold get_opt. by destruct v. Qed.

(** What the validator does with a body it can read. *)
Lemma validate_readable (body : value) :
  body ≠ VUndefined → body ≠ VNull →
  let record := get_opt body "record" in
  validateWebhookPayload body =
    if negb (is_str (get_opt body "type") "INSERT") then
      ([Console "error"],
       Throw (Error "Invalid webhook type - only INSERT events are supported"))
    else if negb (is_str (get_opt body "table") "listings") then
      ([Console "error"], Throw (Error "Invalid table - only listings table is supported"))
    else if negb (truthy record) then
      ([Console "error"], Throw (Error "Missing record data in webhook payload"))
    else if negb (is_str (get_opt record "status") "active") then
      ([Console "error"],
       match to_string (get_opt record "status") with
       | Ok text =>
           Throw (Error ("Listing status '" +:+ text
                         +:+ "' not active - skipping video generation"))
       | Throw e => Throw e
       end)
    else if negb (truthy (get_opt record "id")) then
      ([Console "error"], Throw (Error "Missing listing ID"))
    else if negb (truthy (get_opt record "title")) then
      ([Console "error"], Throw (Error "Missing listing title"))
    else if negb (truthy (get_opt record "user_id")) then
      ([Console "error"], Throw (Error "Missing user ID"))
    else ([], Ok true).
Proof.
  intros Hu Hn record. unfold validateWebhookPayload.
  rewrite !(get_readable body) by done. cbn [mbind outcome_bind].
  destruct (is_str (get_opt body "type") "INSERT") eqn:Htype; cbn [negb].
  2:{ by rewrite orb_true_r. }
  rewrite (is_str_truthy _ "INSERT" ltac:(done) Htype). cbn [negb orb].
  destruct (is_str (get_opt body "table") "listings") eqn:Htable; cbn [negb].
  2:{ by rewrite orb_true_r. }
  rewrite (is_str_truthy _ "listings" ltac:(done) Htable). cbn [negb orb].
  fold record.
  destruct (truthy record) eqn:Hrecord; cbn [negb]; [|done].
  rewrite !(get_truthy record) by done.
  cbn [mbind outcome_bind].
  destruct (is_str (get_opt record "status") "active"); cbn [negb].
  2:{ by destruct (to_string (get_opt record "status")). }
  destruct (truthy (get_opt record "id")); cbn [negb]; [|done].
  destruct (truthy (get_opt record "title")); cbn [negb]; [|done].
  by destruct (truthy (get_opt record "user_id")).
Qed.

(** A body that cannot be read is rejected with the TypeError of the read. *)
Lemma validate_unreadable (body : value) :
  body = VUndefined ∨ body = VNull →
  validateWebhookPayload body = ([Console "error"], Throw (cannot_read body "type")).
Proof. by intros [->| ->]. Qed.

Lemma verdict_unreadable (body : value) :
  body = VUndefined ∨ body = VNull → verdict body = false.
Proof. by intros [->| ->]. Qed.

Lemma readable_or_not (body : value) :
  (body ≠ VUndefined ∧ body ≠ VNull) ∨ (body = VUndefined ∨ body = VNull).
Proof. destruct body; by eauto. Qed.

Lemma validate_verdict (body : value) :
  (verdict body = true → validateWebhookPayload body = ([], Ok true))
  ∧ (verdict body = false →
     ∃ e, validateWebhookPayload body = ([Console "error"], Throw e)).
Proof.
  destruct (readable_or_not body) as [[Hu Hn]|Hbad].
  - rewrite (validate_readable body Hu Hn). unfold verdict.
    destruct (is_str (get_opt body "type") "INSERT"); cbn [negb andb];
      [|split; [done|by eauto]].
    destruct (is_str (get_opt body "table") "listings"); cbn [negb andb];
      [|split; [done|by eauto]].
    destruct (truthy (get_opt body "record")); cbn [negb andb];
      [|split; [done|by eauto]].
    destruct (is_str (get_opt (get_opt body "record") "status") "active");
      cbn [negb andb];
      [|split; [done|intros _; destruct (to_string _); by eauto]].
    destruct (truthy (get_opt (get_opt body "record") "id")); cbn [negb andb];
      [|split; [done|by eauto]].
    destruct (truthy (get_opt (get_opt body "record") "title")); cbn [negb andb];
      [|split; [done|by eauto]].
    destruct (truthy (get_opt (get_opt body "record") "user_id")); cbn [negb andb];
      [|split; [done|by eauto]].
    split; [done|discriminate].
  - rewrite (validate_unreadable body Hbad), (verdict_unreadable body Hbad).
    split; [done|by eauto].
Qed.

(** X6.  The validator accepts an envelope exactly when it is an INSERT on
    the listings table whose record is there, is active and carries an id,
    a title and an owner id.  It answers [true] or throws, never [false];
    it writes one error line to the console when it throws and nothing
    otherwise, and it makes no external call. *)
Theorem validate_accepts_iff (body : value) :
  let record := get_opt body "record" in
  (result (validateWebhookPayload body) = Ok true ↔
     is_str (get_opt body "type") "INSERT" = true
     ∧ is_str (get_opt body "table") "listings" = true
     ∧ truthy record = true
     ∧ is_str (get_opt record "status") "active" = true
     ∧ truthy (get_opt record "id") = true
     ∧ truthy (get_opt record "title") = true
     ∧ truthy (get_opt record "user_id") = true)
  ∧ result (validateWebhookPayload body) ≠ Ok false
  ∧ trace (validateWebhookPayload body)
    = match result (validateWebhookPayload body) with
      | Ok _ => []
      | Throw _ => [Console "error"]
      end.
Proof.
  intros record.
  destruct (validate_verdict body) as [Hyes Hno].
  assert (verdict body = true ↔
          is_str (get_opt body "type") "INSERT" = true
          ∧ is_str (get_opt body "table") "listings" = true
          ∧ truthy record = true
          ∧ is_str (get_opt record "status") "active" = true
          ∧ truthy (get_opt record "id") = true
          ∧ truthy (get_opt record "title") = true
          ∧ truthy (get_opt record "user_id") = true) as Hverdict.
  { unfold verdict. fold record. rewrite !andb_true_iff. tauto. }
  destruct (verdict body) eqn:Hv.
  - rewrite (Hyes eq_refl). split; [|done]. split; [intros _; by apply Hverdict|done].
  - destruct (Hno eq_refl) as [e ->]. split; [|done].
    split; [done|]. intros H. apply Hverdict in H. discriminate.
Qed.

(** A rejected envelope goes straight to the [catch] block. *)
Lemma post_rejected (w : World) (body : value) (e : error) :
  validateWebhookPayload body = ([Console "error"], Throw e) →
  POST w (Ok body) =
    ([Console "log"; Console "error"] ++ trace (on_error e), result (on_error e)).
Proof.
  intros H. unfold POST, process.
  rewrite lift_ok_bind, console_bind, H.
  cbn [mbind M_bind trace result fst snd app].
  by rewrite try_catch_throw.
Qed.

(** X7.  An INSERT on the listings table whose record is missing, or is
    active and lacks its id, its title or its owner id, is answered 400 with
    [success: false] and the message of the first thing that is missing;
    only the console is written to. *)
Theorem missing_field_is_client_error (w : World) (body : value) :
  let record := get_opt body "record" in
  let rejected (msg : string) :=
    POST w (Ok body) =
      ([Console "log"; Console "error"; Console "error"],
       Ok (Response 400 (obj [("success", VBool false); ("error", VStr msg)]))) in
  is_str (get_opt body "type") "INSERT" = true →
  is_str (get_opt body "table") "listings" = true →
  (truthy record = false → rejected "Missing record data in webhook payload")
  ∧ (is_str (get_opt record "status") "active" = true →
     (truthy (get_opt record "id") = false → rejected "Missing listing ID")
     ∧ (truthy (get_opt record "id") = true →
        truthy (get_opt record "title") = false → rejected "Missing listing title")
     ∧ (truthy (get_opt record "id") = true →
        truthy (get_opt record "title") = true →
        truthy (get_opt record "user_id") = false → rejected "Missing user ID")).
Proof.
  intros record rejected Htype Htable. subst rejected. cbv beta.
  assert (body ≠ VUndefined ∧ body ≠ VNull) as [Hu Hn] by by destruct body.
  pose proof (validate_readable body Hu Hn) as Hv. cbv zeta in Hv. fold record in Hv.
  rewrite Htype, Htable in Hv. cbn [negb] in Hv.
  split.
  - intros Hrecord. rewrite Hrecord in Hv. cbn [negb] in Hv.
    by rewrite (post_rejected w _ _ Hv).
  - intros Hactive.
    assert (truthy record = true) as Hrecord.
    { destruct record eqn:E; try done. }
    rewrite Hrecord, Hactive in Hv. cbn [negb] in Hv.
    split; [|split].
    + intros Hid. rewrite Hid in Hv. cbn [negb] in Hv.
      by rewrite (post_rejected w _ _ Hv).
    + intros Hid Htitle. rewrite Hid, Htitle in Hv. cbn [negb] in Hv.
      by rewrite (post_rejected w _ _ Hv).
    + intros Hid Htitle Huser. rewrite Hid, Htitle, Huser in Hv. cbn [negb] in Hv.
      by rewrite (post_rejected w _ _ Hv).
Qed.

(** X8.  An event of another type, or on another table, is skipped: the
    answer is 200 with [success: true], "Webhook skipped" and the reason,
    whatever else the body holds; the type is looked at first.  Only the
    console is written to. *)
Theorem foreign_event_is_skipped (w : World) (body : value) :
  body ≠ VUndefined → body ≠ VNull →
  is_str (get_opt body "type") "INSERT" && is_str (get_opt body "table") "listings"
  = false →
  POST w (Ok body) =
    ([Console "log"; Console "error"; Console "log"],
     Ok (Response 200
           (obj [("success", VBool true);
                 ("message", VStr "Webhook skipped");
                 ("reason",
                  VStr (if is_str (get_opt body "type") "INSERT"
                        then "Invalid table - only listings table is supported"
                        else "Invalid webhook type - only INSERT events are supported"))]))).
Proof.
  intros Hu Hn Hforeign.
  pose proof (validate_readable body Hu Hn) as Hv. cbv zeta in Hv.
  destruct (is_str (get_opt body "type") "INSERT"); cbn [negb andb] in *.
  - rewrite Hforeign in Hv. cbn [negb] in Hv. by rewrite (post_rejected w _ _ Hv).
  - by rewrite (post_rejected w _ _ Hv).
Qed.

Lemma description_calls (listing : value) :
  forallb webhook_call (trace (generateListingDescription listing)) = true.
Proof.
  rewrite generateListingDescription_cases.
  destruct (get listing "description") as [d|e]; [|done].
  destruct (if truthy d then _ else _) as [[|]|e]; [| |done].
  - by destruct d.
  - by destruct (to_string _).
Qed.

Lemma validate_calls (body : value) :
  forallb webhook_call (trace (validateWebhookPayload body)) = true.
Proof.
  destruct (validate_verdict body) as [Hyes Hno].
  destruct (verdict body); [by rewrite Hyes|]. by destruct (Hno eq_refl) as [e ->].
Qed.

Lemma reel_calls (w : World) (listing seller : value) :
  forallb webhook_call (trace (generateVideoReel w listing seller)) = true.
Proof.
  unfold generateVideoReel. climb_step; [|climb].
  repeat (climb_step; [first [apply description_calls | reflexivity]|]).
  climb.
Qed.

(** X9.  Whatever the request and whatever the collaborators answer, the
    webhook entry point calls nothing but the console, the cookie store,
    the client factory and the profile lookup: it never fetches a listing,
    never asks for a generated text, never renders, uploads, updates a
    record or deletes a file. *)
Theorem webhook_never_renders (w : World) (req_json : outcome value) :
  forallb webhook_call (trace (POST w req_json)) = true.
Proof.
  unfold POST. apply allowed_try_catch.
  2:{ intros e. unfold on_error. climb. }
  unfold process.
  repeat (climb_step;
          [first [apply validate_calls | apply reel_calls | reflexivity | climb]|]).
  climb.
Qed.

Lemma filter_quiet (t : list event) :
  forallb (λ ev, negb (is_external ev)) t = true → List.filter is_external t = [].
Proof.
  induction t as [|ev t IH]; simpl; [done|].
  intros [Hev Ht]%andb_true_iff. apply negb_true_iff in Hev. rewrite Hev. by apply IH.
Qed.

Lemma description_quiet (listing : value) :
  List.filter is_external (trace (generateListingDescription listing)) = [].
Proof.
  rewrite generateListingDescription_cases.
  destruct (get listing "description") as [d|e]; [|done].
  destruct (if truthy d then _ else _) as [[|]|e]; [| |done].
  - by destruct d.
  - by destruct (to_string _).
Qed.

(** X10.  A valid event, with the cookie store and the client at hand, a
    profile lookup that answers and a record whose fields can be written as
    text, is answered 200 with the listing id and the storage path
    "video-reels/listing-<id>-<now>.mp4" of a video that is not made: the
    only external calls are the cookie store and client, the profile
    lookup, and the cookie store and client again.  The job carries the
    record's title, and as seller name the profile's full name, else its
    username; when the lookup reports an error or finds nothing, the name is
    "PeerMetals Seller".  Its logo address is the configured base address
    followed by "/peermetals.png", or the fixed address when none is
    configured. *)
Theorem valid_event_is_queued
    (w : World) (payload : value) (profile : query) (specifications : value)
    (title id base name reason : string) :
  let record := get_opt payload "record" in
  let missing := truthy (query_error profile) || negb (truthy (data profile)) in
  let seller := if missing then fallback_seller_webhook else data profile in
  verdict payload = true →
  get_cookies w = Ok tt →
  create_client w = Ok tt →
  select_single w "profiles" (get_opt record "user_id") = Ok profile →
  to_string (get_opt (query_error profile) "message") = Ok reason →
  to_string (get_opt record "title") = Ok title →
  to_string (get_opt record "id") = Ok id →
  to_string (or_else (get_opt seller "full_name") (get_opt seller "username")) = Ok name →
  to_string (env w "NEXT_PUBLIC_APP_URL") = Ok base →
  specifications_of record = Ok specifications →
  ∃ r : response,
    result (POST w (Ok payload)) = Ok r
    ∧ status r = 200%Z
    ∧ field r "success" = Some (VBool true)
    ∧ field r "message" = Some (VStr "Video reel generation queued successfully")
    ∧ field r "listingId" = Some (get_opt record "id")
    ∧ field r "videoPath"
      = Some (VStr ("video-reels/listing-" +:+ id +:+ "-"
                    +:+ numeral (int (now_file w)) +:+ ".mp4"))
    ∧ path_opt (body r) ["videoData"; "listingTitle"] = get_opt record "title"
    ∧ path_opt (body r) ["videoData"; "specifications"] = specifications
    ∧ path_opt (body r) ["videoData"; "sellerName"]
      = (if missing then VStr "PeerMetals Seller"
         else or_else (get_opt (data profile) "full_name")
                      (get_opt (data profile) "username"))
    ∧ path_opt (body r) ["videoData"; "logoUrl"]
      = (if truthy (env w "NEXT_PUBLIC_APP_URL")
         then VStr (base +:+ "/peermetals.png")
         else VStr "https://peermetals.com/peermetals.png")
    ∧ List.filter is_external (trace (POST w (Ok payload)))
      = [GetCookies; CreateClient;
         SelectSingle "profiles" (get_opt record "user_id");
         GetCookies; CreateClient].
Proof.
  intros record missing seller Hvalid Hcookies Hclient Hprofile Hreason Htitle Hid
         Hname Hbase Hspec.
  destruct (validate_verdict payload) as [Hyes _]. specialize (Hyes Hvalid).
  assert (payload ≠ VUndefined ∧ payload ≠ VNull) as [Hu Hn] by by destruct payload.
  assert (truthy record = true ∧ truthy (get_opt record "title") = true)
    as [Hrecord Htruthy].
  { unfold verdict in Hvalid. fold record in Hvalid.
    rewrite !andb_true_iff in Hvalid. tauto. }
  assert (truthy seller = true) as Hseller.
  { subst seller missing. destruct (truthy (query_error profile)); [done|].
    by destruct (truthy (data profile)) eqn:Hd. }
  destruct (generateVideoReel_ok w record seller specifications title id base
              Hrecord Hseller Htitle Hid Hbase Hspec Hcookies Hclient)
    as (t & text & Htext & Hreel).
  assert (List.filter is_external t = [GetCookies; CreateClient]) as Hcalls.
  { assert (t = trace (generateVideoReel w record seller)) as -> by by rewrite Hreel.
    unfold generateVideoReel.
    rewrite Hspec, !(get_truthy record), !(get_truthy seller) by done.
    rewrite lift_ok_bind, Htitle, lift_ok_bind, console_bind.
    destruct (generateListingDescription record) as [td [d|e]] eqn:Hd;
      [|discriminate].
    pose proof (description_quiet record) as Hq. rewrite Hd in Hq.
    cbn [trace fst] in Hq.
    cbn -[obj video_file_name logoUrl]. rewrite Hcookies, Hclient.
    assert (video_file_name w record =
            Ok ("listing-" +:+ id +:+ "-" +:+ numeral (int (now_file w)) +:+ ".mp4"))
      as Hfile.
    { unfold video_file_name. rewrite (get_truthy record) by done.
      cbn [mbind outcome_bind]. by rewrite Hid. }
    assert (∃ logo, logoUrl w = Ok logo) as [logo Hlogo].
    { unfold logoUrl. rewrite Hbase.
      destruct (truthy (env w "NEXT_PUBLIC_APP_URL")); by eauto. }
    rewrite Hlogo, Hfile. cbn -[obj]. rewrite List.filter_app, Hq. reflexivity. }
  assert (POST w (Ok payload) =
          ([Console "log"; GetCookies; CreateClient;
            SelectSingle "profiles" (get_opt record "user_id")]
             ++ (if missing then [Console "log"] else [])
             ++ [Console "log"] ++ t,
           Ok (Response 200
                 (obj [("success", VBool true);
                       ("message", VStr "Video reel generation queued successfully");
                       ("listingId", get_opt record "id");
                       ("videoPath",
                        VStr ("video-reels/" +:+ "listing-" +:+ id +:+ "-"
                              +:+ numeral (int (now_file w)) +:+ ".mp4"));
                       ("videoData",
                        obj [("listingTitle",
                              or_else (get_opt record "title") (VStr "New Listing"));
                             ("listingDescription", VStr text);
                             ("images", or_else (get_opt record "images") (VArr []));
                             ("specifications", specifications);
                             ("sellerName",
                              or_else (get_opt seller "full_name")
                                      (get_opt seller "username"));
                             ("logoUrl",
                              if truthy (env w "NEXT_PUBLIC_APP_URL")
                              then VStr (base +:+ "/peermetals.png")
                              else VStr "https://peermetals.com/peermetals.png")])]))))
    as Hpost.
  { unfold POST, process.
    rewrite lift_ok_bind, console_bind, Hyes.
    cbn [mbind M_bind trace result fst snd app].
    rewrite (get_readable payload "record") by done. fold record.
    rewrite lift_ok_bind, Hcookies, call_ok_bind, Hclient, call_ok_bind.
    rewrite !(get_truthy record) by done.
    rewrite lift_ok_bind, Hprofile, call_ok_bind.
    fold missing.
    assert (∀ B (k : value → M B),
              ((if missing
                then _ ← lift (to_string (get_opt (query_error profile) "message"));
                     _ ← console "log"; mret fallback_seller_webhook
                else mret (data profile)) ≫= k)
              = ((if missing then [Console "log"] else []) ++ trace (k seller),
                 result (k seller))) as Hbranch.
    { intros B k. subst seller. rewrite Hreason.
      destruct missing; cbn; by destruct (k _). }
    rewrite Hbranch.
    rewrite lift_ok_bind, Htitle, lift_ok_bind.
    rewrite !(get_truthy _ _ Hseller), !lift_ok_bind, Hname, lift_ok_bind,
            console_bind, Hreel, ok_bind.
    cbn [trace result fst snd truthy obj negb]. rewrite !lift_ok_bind.
    cbn [trace result fst snd mret M_ret]. by rewrite app_nil_r. }
  rewrite Hpost. eexists. split; [reflexivity|]. cbn [status trace fst].
  split; [done|]. split; [reflexivity|]. split; [reflexivity|].
  split; [reflexivity|]. split; [reflexivity|].
  split.
  { change (path_opt _ ["videoData"; "listingTitle"])
      with (or_else (get_opt record "title") (VStr "New Listing")).
    by rewrite or_else_truthy. }
  split; [reflexivity|].
  split.
  { change (path_opt _ ["videoData"; "sellerName"])
      with (or_else (get_opt seller "full_name") (get_opt seller "username")).
    subst seller. by destruct missing. }
  split; [reflexivity|].
  rewrite !List.filter_app, Hcalls. by destruct missing.
Qed.

End WebhookMore.

(** * The render endpoint, continued *)

Module RenderMore.
Import Str JS Render StrFacts JSFacts MFacts BagFacts RenderFacts TraceFacts.



















Lemma describe_no_fetch (w : World) (input : value) :
  forallb (λ ev, negb (fetches_listing ev))
          (trace (Description.generateDetailedDescription w input)) = true.
Proof. unfold Description.generateDetailedDescription. climb. Qed.

Lemma publish_no_fetch (w : World) (listing : value) (name path : string) :
  forallb (λ ev, negb (fetches_listing ev)) (trace (publish w listing name path)) = true.
Proof. unfold publish. climb. Qed.

Lemma props_no_fetch (w : World) (listing seller : value) :
  forallb (λ ev, negb (fetches_listing ev)) (trace (prepare_props w listing seller))
  = true.
Proof.
  unfold prepare_props.
  repeat (climb_step; [first [apply describe_no_fetch | reflexivity]|]).
  climb.
Qed.

Lemma pipeline_no_fetch (w : World) (listing : value) :
  forallb (λ ev, negb (fetches_listing ev)) (trace (pipeline w listing)) = true.
Proof.
  unfold pipeline.
  repeat (climb_step; [first [apply props_no_fetch | reflexivity]|]).
  apply publish_no_fetch.
Qed.

(** X12.  When the request carries listing data, the listing id plays no
    part: two requests with the same data are treated alike whatever ids
    they carry, and the listing is never fetched from the store. *)
Theorem inline_listing_is_not_fetched (w : World) (b1 b2 : value) :
  b1 ≠ VUndefined → b1 ≠ VNull → b2 ≠ VUndefined → b2 ≠ VNull →
  get_opt b1 "listingData" = get_opt b2 "listingData" →
  truthy (get_opt b1 "listingData") = true →
  handler w (Request "POST" b1) = handler w (Request "POST" b2)
  ∧ forallb (λ ev, negb (fetches_listing ev)) (trace (handler w (Request "POST" b1)))
    = true.
Proof.
  intros Hu1 Hn1 Hu2 Hn2 Hsame Hdata.
  assert (∀ b, b ≠ VUndefined → b ≠ VNull →
               get_opt b "listingData" = get_opt b1 "listingData" →
               attempt w (Request "POST" b) = pipeline w (get_opt b1 "listingData"))
    as Hattempt.
  { intros b Hu Hn Hb. unfold attempt, resolve_listing. cbn [req_body].
    assert (destructure_body b = Ok (get_opt b "listingId", get_opt b "listingData"))
      as -> by by destruct b.
    rewrite lift_ok_bind, Hb, Hdata, !andb_false_r. cbn [negb].
    destruct (pipeline w (get_opt b1 "listingData")) as [t r] eqn:Hp.
    unfold mbind, M_bind, mret, M_ret. by rewrite Hp. }
  assert (∀ b, b ≠ VUndefined → b ≠ VNull →
               get_opt b "listingData" = get_opt b1 "listingData" →
               handler w (Request "POST" b) =
                 (_ ← console "log";
                  try_catch (pipeline w (get_opt b1 "listingData")) (failure_response w)))
    as Hhandler.
  { intros b Hu Hn Hb. unfold handler. cbn [method String.eqb Ascii.eqb Bool.eqb negb].
    by rewrite (Hattempt b Hu Hn Hb). }
  split; [by rewrite (Hhandler b1), (Hhandler b2)|].
  rewrite (Hhandler b1) by done.
  climb_step; [reflexivity|]. climb_step; [apply pipeline_no_fetch|].
  unfold failure_response. climb.
Qed.

Lemma unlinked_app (t1 t2 : list event) :
  unlinked (t1 ++ t2) = unlinked t1 ++ unlinked t2.
Proof.
  induction t1 as [|ev t1 IH]; [done|]. destruct ev; simpl; by rewrite ?IH.
Qed.

Lemma rendered_app (t1 t2 : list event) :
  rendered (t1 ++ t2) = rendered t1 ++ rendered t2.
Proof.
  induction t1 as [|ev t1 IH]; [done|]. destruct ev; simpl; by rewrite ?IH.
Qed.

Lemma untouched (t : list event) :
  forallb (λ ev, negb (touches_file ev)) t = true →
  rendered t = [] ∧ unlinked t = [].
Proof.
  induction t as [|ev t IH]; [done|]. simpl.
  intros [Hev Ht]%andb_true_iff. destruct ev; try done; by apply IH.
Qed.

Lemma settled_bind {A : Type} (w : World) (head : list string) (c : M A)
    (f : A → M response) :
  forallb (λ ev, negb (touches_file ev)) (trace c) = true →
  (∀ a, settled w head (f a)) →
  settled w head (c ≫= f).
Proof.
  intros [Hr Hu]%untouched Hf. unfold settled.
  rewrite result_bind, trace_bind, unlinked_app, rendered_app, Hr, Hu.
  destruct (result c) as [a|e]; [apply Hf|].
  right; right. by exists e.
Qed.

Lemma settled_render (w : World) (path : string) (props : value) (x : outcome unit)
    (f : unit → M response) :
  settled w [path] (f tt) →
  settled w [] (call (RenderMedia path props) x ≫= f).
Proof.
  intros Hf. unfold settled.
  rewrite result_bind, trace_bind. cbn [call trace result fst snd].
  destruct x as [[]|e]; [|right; right; by exists e].
  exact Hf.
Qed.

Lemma publish_rendered (w : World) (listing : value) (name path : string) :
  rendered (trace (publish w listing name path)) = [].
Proof.
  assert (forallb (λ ev, negb (match ev with RenderMedia _ _ => true | _ => false end))
                  (trace (publish w listing name path)) = true) as H.
  { unfold publish. climb. }
  revert H. generalize (trace (publish w listing name path)).
  induction l as [|ev t IH]; [done|]. simpl.
  intros [Hev Ht]%andb_true_iff. destruct ev; try done; by apply IH.
Qed.

Lemma publish_settled (w : World) (listing : value) (name path : string) :
  settled w [path] (publish w listing name path).
Proof.
  unfold settled. rewrite publish_rendered.
  destruct (publish_cases w listing name path)
    as [(url & id & Hr & Hu)|[(e & Hr & Hu & He)|(e & Hr & Hu)]].
  - left. eexists _, path. by rewrite Hr, Hu.
  - right; left. exists e, path. by rewrite Hr, Hu.
  - right; right. exists e. by rewrite Hr, Hu.
Qed.

Lemma describe_untouched (w : World) (input : value) :
  forallb (λ ev, negb (touches_file ev))
          (trace (Description.generateDetailedDescription w input)) = true.
Proof. unfold Description.generateDetailedDescription. climb. Qed.

Lemma props_untouched (w : World) (listing seller : value) :
  forallb (λ ev, negb (touches_file ev)) (trace (prepare_props w listing seller)) = true.
Proof.
  unfold prepare_props.
  repeat (climb_step; [first [apply describe_untouched | reflexivity]|]).
  climb.
Qed.

Lemma resolve_untouched (w : World) (listingId listingData : value) :
  forallb (λ ev, negb (touches_file ev))
          (trace (resolve_listing w listingId listingData)) = true.
Proof. unfold resolve_listing. climb. Qed.

Lemma pipeline_settled (w : World) (listing : value) :
  settled w [] (pipeline w listing).
Proof.
  unfold pipeline.
  repeat (apply settled_bind; [first [apply props_untouched | reflexivity]|intros ?]).
  apply settled_render.
  apply settled_bind; [reflexivity|intros ?].
  apply publish_settled.
Qed.

(** X13.  The rendered file is deleted only at the end of a run that
    succeeds.  Whatever the request and whatever the collaborators answer:
    a 200 answer means that exactly one file was rendered and that this
    file, and nothing else, was deleted; any other answer means that
    nothing was deleted, unless the failure is the deletion itself. *)
Theorem cleanup_only_on_success (w : World) (req : request) :
  ∃ r : response,
    result (handler w req) = Ok r
    ∧ (status r = 200%Z →
       ∃ path, rendered (trace (handler w req)) = [path]
               ∧ unlinked (trace (handler w req)) = [path])
    ∧ (status r ≠ 200%Z →
       unlinked (trace (handler w req)) = []
       ∨ ∃ path e, rendered (trace (handler w req)) = [path]
                   ∧ unlinked (trace (handler w req)) = [path]
                   ∧ unlink w path = Throw e
                   ∧ field r "error" = Some (VStr (message e))).
Proof.
  unfold handler. destruct (negb _).
  { eexists. split; [reflexivity|]. split; [done|]. intros _. by left. }
  rewrite console_bind.
  assert (settled w [] (attempt w req)
          ∨ attempt w req =
              ([], Ok (Response 400
                         (obj [("error",
                                VStr "Missing required parameter: listingId or listingData")]))))
    as [Hsettled|H400].
  { unfold attempt.
    destruct (destructure_body (req_body req)) as [[listingId listingData]|e].
    - rewrite lift_ok_bind.
      destruct (negb (truthy listingId) && negb (truthy listingData)); [by right|].
      left. apply settled_bind; [apply resolve_untouched|intros listing].
      apply pipeline_settled.
    - left. right; right. by exists e. }
  - destruct (attempt w req) as [t [r|e]] eqn:Hattempt; unfold settled in Hsettled;
      cbn [trace result fst snd app] in Hsettled.
    + destruct Hsettled as [(r' & path & [= <-] & Hs & Hr & Hu)|[(e & _ & [=] & _)|(e & [=] & _)]].
      exists r. rewrite try_catch_ok. cbn [trace result fst snd rendered unlinked].
      split; [done|]. split; [intros _; by exists path|]. by intros [].
    + rewrite try_catch_throw. unfold failure_response at 2.
      eexists. split; [unfold failure_response; reflexivity|].
      cbn [trace fst snd status]. split; [done|]. intros _.
      unfold failure_response. cbn [trace console mbind M_bind mret M_ret fst snd app].
      cbn [rendered unlinked].
      rewrite !unlinked_app, !rendered_app. cbn [rendered unlinked app].
      rewrite !app_nil_r.
      destruct Hsettled as [(r' & path & [=] & _)|[(e' & path & [= <-] & Hr & Hu & He)|(e' & _ & Hu)]].
      * right. exists path, e. by repeat split.
      * by left.
  - rewrite H400, try_catch_ok. eexists. split; [reflexivity|].
    split; [done|]. intros _. by left.
Qed.

Lemma selected_props_app (t1 t2 : list event) :
  selected_props (t1 ++ t2) = selected_props t1 ++ selected_props t2.
Proof.
  induction t1 as [|ev t1 IH]; [done|]. destruct ev; simpl; by rewrite ?IH.
Qed.

Lemma unselected (t : list event) :
  forallb (λ ev, negb (match ev with SelectComposition _ => true | _ => false end)) t
  = true →
  selected_props t = [].
Proof.
  induction t as [|ev t IH]; [done|]. simpl.
  intros [Hev Ht]%andb_true_iff. destruct ev; try done; by apply IH.
Qed.

Section Selected.
Variable good : value → Prop.

(** Every bag handed over is good, and at most one is handed over. *)
Let sound (t : list event) : Prop :=
  Forall good (selected_props t) ∧ length (selected_props t) ≤ 1.

Lemma sound_nil : sound [].
Proof. split; [constructor|simpl; lia]. Qed.

Lemma sound_quiet_bind {A B : Type} (c : M A) (f : A → M B) :
  forallb (λ ev, negb (match ev with SelectComposition _ => true | _ => false end))
          (trace c) = true →
  (∀ a, result c = Ok a → sound (trace (f a))) →
  sound (trace (c ≫= f)).
Proof.
  intros Hc Hf. unfold sound.
  rewrite trace_bind, selected_props_app, (unselected _ Hc). cbn [app].
  destruct (result c) as [a|e]; [by apply Hf|apply sound_nil].
Qed.

Lemma sound_select {B : Type} (props : value) (x : outcome value) (f : value → M B) :
  good props →
  (∀ a, forallb (λ ev, negb (match ev with SelectComposition _ => true | _ => false end))
                (trace (f a)) = true) →
  sound (trace (call (SelectComposition props) x ≫= f)).
Proof.
  intros Hprops Hf. unfold sound.
  rewrite trace_bind, selected_props_app. cbn [call trace result fst snd selected_props app].
  destruct x as [a|e].
  - rewrite (unselected _ (Hf a)). split; [by repeat constructor|simpl; lia].
  - split; [by repeat constructor|simpl; lia].
Qed.

Lemma sound_try_catch {A : Type} (c : M A) (h : error → M A) :
  sound (trace c) →
  (∀ e, selected_props (trace (h e)) = []) →
  sound (trace (try_catch c h)).
Proof.
  intros Hc Hh. unfold sound. rewrite trace_try_catch, selected_props_app.
  destruct (result c); rewrite ?Hh, app_nil_r; exact Hc.
Qed.

Lemma sound_unfold (t : list event) :
  sound t → Forall good (selected_props t) ∧ length (selected_props t) ≤ 1.
Proof. done. Qed.

End Selected.

Lemma describe_unselected (w : World) (input : value) :
  forallb (λ ev, negb (match ev with SelectComposition _ => true | _ => false end))
          (trace (Description.generateDetailedDescription w input)) = true.
Proof. unfold Description.generateDetailedDescription. climb. Qed.

Lemma props_unselected (w : World) (listing seller : value) :
  forallb (λ ev, negb (match ev with SelectComposition _ => true | _ => false end))
          (trace (prepare_props w listing seller)) = true.
Proof.
  unfold prepare_props.
  repeat (climb_step; [first [apply describe_unselected | reflexivity]|]).
  climb.
Qed.

Lemma publish_unselected (w : World) (listing : value) (name path : string) :
  forallb (λ ev, negb (match ev with SelectComposition _ => true | _ => false end))
          (trace (publish w listing name path)) = true.
Proof. unfold publish. climb. Qed.

Lemma resolve_unselected (w : World) (listingId listingData : value) :
  forallb (λ ev, negb (match ev with SelectComposition _ => true | _ => false end))
          (trace (resolve_listing w listingId listingData)) = true.
Proof. unfold resolve_listing. climb. Qed.

(** X14.  Whatever the request, the configuration and the collaborators'
    answers, every input bag the render endpoint hands to the composition
    carries the logo address "https://peermetals.com/peermetals.png", and
    there is at most one such bag per request. *)
Theorem selected_bag_has_fixed_logo (w : World) (req : request) :
  Forall (λ bag, own bag "logoUrl" = Some (VStr "https://peermetals.com/peermetals.png"))
         (selected_props (trace (handler w req)))
  ∧ length (selected_props (trace (handler w req))) ≤ 1.
Proof.
  apply sound_unfold.
  unfold handler. destruct (negb _); [apply sound_nil|].
  apply sound_quiet_bind; [reflexivity|intros [] _].
  apply sound_try_catch; [|reflexivity].
  unfold attempt.
  apply sound_quiet_bind; [reflexivity|intros [listingId listingData] _].
  destruct (negb (truthy listingId) && negb (truthy listingData)); [apply sound_nil|].
  apply sound_quiet_bind; [apply resolve_unselected|intros listing _].
  unfold pipeline.
  do 3 (apply sound_quiet_bind; [reflexivity|intros ? _]).
  apply sound_quiet_bind; [reflexivity|intros profile _].
  apply sound_quiet_bind; [apply props_unselected|intros props Hprops].
  do 3 (apply sound_quiet_bind; [reflexivity|intros ? _]).
  apply sound_select.
  - by apply prepare_props_inv in Hprops as (? & _ & _ & ?).
  - intros composition.
    repeat (cbv zeta; climb_step; [reflexivity|]). apply publish_unselected.
Qed.

End RenderMore.

(** * More scenarios *)

Module MoreScenarios.
Import Str JS Sample Sample2.

Lemma generators_without_key_stay_local_witness :
  result (VideoDescription.generateVideoDescription healthy eagle)
    = Ok ".999 purity gold from 2024. Exceptional quality."
  ∧ result (Description.generateDetailedDescription healthy eagle)
    = Ok "Discover this exceptional gold piece.".
Proof.
  destruct (GeneratorFacts.generators_without_key_stay_local healthy eagle eq_refl)
    as (Hshort & _ & Hlong & _).
  rewrite Hshort, Hlong. split; reflexivity.
Defined.

Lemma video_description_from_service_witness :
  result (VideoDescription.generateVideoDescription
            (service_answers "  Struck in 2024, brilliant as new.  ") eagle)
    = Ok "Struck in 2024, brilliant as new.".
Proof.
  destruct (VideoDescription.video_prompt eagle) as [prompt|e] eqn:Hprompt;
    [|discriminate].
  destruct (GeneratorFacts.video_description_from_service
              (service_answers "  Struck in 2024, brilliant as new.  ") eagle prompt
              "  Struck in 2024, brilliant as new.  " eq_refl Hprompt eq_refl)
    as (out & Hresult & Hwhole & _).
  rewrite Hresult. f_equal. apply Hwhole. vm_compute. lia.
Defined.

Lemma service_failure_falls_back_witness :
  result (VideoDescription.generateVideoDescription service_fails eagle)
    = Ok ".999 purity gold from 2024. Exceptional quality."
  ∧ result (Description.generateDetailedDescription service_fails eagle)
    = Ok "Discover this exceptional gold piece.".
Proof.
  destruct (VideoDescription.video_prompt eagle) as [short|e1] eqn:Hshort;
    [|discriminate].
  destruct (Description.detailed_prompt eagle) as [long|e2] eqn:Hlong;
    [|discriminate].
  destruct (GeneratorFacts.service_failure_falls_back service_fails eagle short long
              (Error "quota exceeded") (Error "quota exceeded")
              eq_refl Hshort Hlong eq_refl eq_refl) as (-> & ->).
  split; reflexivity.
Defined.

Lemma descriptions_never_throw_witness :
  ∃ short long : string,
    result (VideoDescription.generateVideoDescription service_fails eagle) = Ok short
    ∧ len short ≤ 150
    ∧ result (Description.generateDetailedDescription service_fails eagle) = Ok long.
Proof.
  destruct (GeneratorFacts.descriptions_never_throw service_fails eagle
              "Gold" ".999" "2024" "undefined"
              ltac:(discriminate) ltac:(discriminate)
              ltac:(vm_compute; reflexivity) ltac:(vm_compute; reflexivity)
              ltac:(vm_compute; reflexivity) ltac:(vm_compute; reflexivity))
    as ((short & Hshort & Hlen) & (long & Hlong) & _).
  by exists short, long.
Defined.

Lemma missing_field_is_client_error_witness :
  Webhook.POST healthy
    (Ok (obj [("type", VStr "INSERT"); ("table", VStr "listings");
              ("record", obj [("id", VStr "x"); ("status", VStr "active")])])) =
    ([Console "log"; Console "error"; Console "error"],
     Ok (Response 400 (obj [("success", VBool false);
                            ("error", VStr "Missing listing title")]))).
Proof.
  destruct (WebhookMore.missing_field_is_client_error healthy
              (obj [("type", VStr "INSERT"); ("table", VStr "listings");
                    ("record", obj [("id", VStr "x"); ("status", VStr "active")])])
              ltac:(vm_compute; reflexivity) ltac:(vm_compute; reflexivity))
    as (_ & Hactive).
  destruct (Hactive ltac:(vm_compute; reflexivity)) as (_ & Htitle & _).
  apply Htitle; vm_compute; reflexivity.
Defined.

Lemma foreign_event_is_skipped_witness :
  Webhook.POST healthy (Ok (envelope "UPDATE" "active" [])) =
    ([Console "log"; Console "error"; Console "log"],
     Ok (Response 200
           (obj [("success", VBool true);
                 ("message", VStr "Webhook skipped");
                 ("reason",
                  VStr "Invalid webhook type - only INSERT events are supported")]))).
Proof.
  apply (WebhookMore.foreign_event_is_skipped healthy (envelope "UPDATE" "active" []));
    [discriminate | discriminate | vm_compute; reflexivity].
Defined.

Lemma valid_event_is_queued_witness :
  ∃ r : response,
    result (Webhook.POST healthy (Ok (envelope "INSERT" "active" []))) = Ok r
    ∧ status r = 200%Z
    ∧ field r "videoPath" = Some (VStr "video-reels/listing-x-1700000030000.mp4")
    ∧ path_opt (body r) ["videoData"; "sellerName"] = VStr "Ann Lee".
Proof.
  destruct (specifications_of (record "active" [])) as [specifications|e] eqn:Hspec;
    [|discriminate].
  destruct (WebhookMore.valid_event_is_queued healthy (envelope "INSERT" "active" [])
              (Query (obj [("username", VStr "ann"); ("full_name", VStr "Ann Lee")]) VNull)
              specifications "T" "x" "undefined" "Ann Lee" "undefined"
              ltac:(vm_compute; reflexivity) ltac:(vm_compute; reflexivity)
              ltac:(vm_compute; reflexivity) ltac:(vm_compute; reflexivity)
              ltac:(vm_compute; reflexivity) ltac:(vm_compute; reflexivity)
              ltac:(vm_compute; reflexivity) ltac:(vm_compute; reflexivity)
              ltac:(vm_compute; reflexivity) Hspec)
    as (r & Hr & Hstatus & _ & _ & _ & Hpath & _ & _ & Hseller & _).
  exists r. split; [exact Hr|]. split; [exact Hstatus|].
  split; [exact Hpath|]. exact Hseller.
Defined.

Lemma inline_listing_is_not_fetched_witness :
  Render.handler healthy
    (post (obj [("listingId", VStr "abc"); ("listingData", inline_listing)]))
  = Render.handler healthy (post (obj [("listingData", inline_listing)])).
Proof.
  destruct (RenderMore.inline_listing_is_not_fetched healthy
              (obj [("listingId", VStr "abc"); ("listingData", inline_listing)])
              (obj [("listingData", inline_listing)])
              ltac:(discriminate) ltac:(discriminate)
              ltac:(discriminate) ltac:(discriminate)
              ltac:(vm_compute; reflexivity) ltac:(vm_compute; reflexivity))
    as (Hsame & _).
  exact Hsame.
Defined.

End MoreScenarios.
